(** * time_sync.py: device time synchronisation and status tracking

    A shallow embedding of [time_sync.py] of the biometric attendance sync
    tool.  The script polls a fleet of ZKTeco terminals, compares each
    terminal's clock with the local clock, corrects it when the drift exceeds
    a tolerance, keeps the last known reachability of every terminal in a
    PickleDB file and posts a Google Chat message when it changes.

    Conventions of the embedding.
    - Points in time ([datetime]) are integers counting microseconds, the
      resolution of [datetime]; [total_seconds()] of a difference [d] is then
      [d / 10^6], and for an integral number of seconds [s] the comparison
      [total_seconds() > s] is [d > s * 10^6].
    - Everything the script does to the outside world (the SDK session, the
      webhook, the status file, the log, the console, the local clock) is an
      operation of the monad [M].  The answers of the outside world come from
      an oracle [Env], asked with the number of the request; the operations
      performed are collected, in order, in a list of [Event]s.
    - A Python exception (any subclass of [Exception]) is the result [Raise]. *)

From Stdlib Require Import ZArith Lia.
From stdpp Require Import gmap strings list.

Local Open Scope string_scope.
Local Open Scope Z_scope.
Local Open Scope list_scope.

(** ** Configuration ([local_config.py])

    The configuration module is not part of the script; it is a parameter of
    every definition below.  An attribute the module does not define is
    [None], which is what the three-argument [getattr] tests. *)

Record Device := {
  device_id : string;
  ip : string;
}.

Record LocalConfig := {
  devices : list Device;
  cfg_TIME_SYNC_FREQUENCY : option Z;
  cfg_TIME_TOLERANCE_SECONDS : option Z;
  cfg_ENABLE_TIME_SYNC : option bool;
  cfg_GOOGLE_CHAT_WEBHOOK : option string;
  cfg_ENABLE_CHAT_NOTIFICATIONS : option bool;
}.

Definition getattr {A} (attribute : option A) (dflt : A) : A :=
  default dflt attribute.

Definition TIME_SYNC_FREQUENCY (config : LocalConfig) : Z :=
  getattr (cfg_TIME_SYNC_FREQUENCY config) 1.

Definition TIME_TOLERANCE_SECONDS (config : LocalConfig) : Z :=
  getattr (cfg_TIME_TOLERANCE_SECONDS config) 60.

Definition ENABLE_TIME_SYNC (config : LocalConfig) : bool :=
  getattr (cfg_ENABLE_TIME_SYNC config) true.

(** [getattr(config, 'GOOGLE_CHAT_WEBHOOK', None)]: the attribute or [None]. *)
Definition GOOGLE_CHAT_WEBHOOK (config : LocalConfig) : option string :=
  cfg_GOOGLE_CHAT_WEBHOOK config.

Definition ENABLE_CHAT_NOTIFICATIONS (config : LocalConfig) : bool :=
  getattr (cfg_ENABLE_CHAT_NOTIFICATIONS config) true.

(** Truth value of a string-or-[None]: [None] and [''] are false. *)
Definition truthy (s : option string) : bool :=
  match s with
  | Some s => negb (String.eqb s "")
  | None => false
  end.

(** ** Time *)

Definition time := Z.

Definition usec_per_sec : Z := 1000000.

(** [abs((a - b).total_seconds())], in microseconds. *)
Definition abs_diff (a b : time) : Z := Z.abs (a - b).

(** [diff > seconds] for a difference in microseconds. *)
Definition exceeds (diff seconds : Z) : bool := seconds * usec_per_sec <? diff.

(** ** Values, messages and events *)

(** A value of the status file: a string, or [str(t)] for a point in time. *)
Inductive Value :=
| VStr (s : string)
| VTime (t : time).

#[global] Instance Value_eq_dec : EqDecision Value.
Proof. solve_decision. Defined.

(** The [message] argument of [send_google_chat_message] at its call sites. *)
Inductive ChatMessage :=
| MsgBackOnline                     (* "Device is back ONLINE" *)
| MsgOffline                        (* "Device is OFFLINE" *)
| MsgTimeSynchronized (diff : Z).   (* "Time synchronized (difference was ... seconds)" *)

(** The text posted to the webhook. *)
Inductive FullMessage :=
| DeviceAlert (id addr : string) (timestamp : time) (m : ChatMessage)
| SystemAlert (timestamp : time) (m : ChatMessage).

Inductive Level := DEBUG | INFO | WARNING | ERROR.

(** One constructor for each call of [time_sync_logger]. *)
Inductive LogMessage :=
| LogWebhookNotConfigured
| LogChatSent (m : ChatMessage)
| LogChatFailed (status_code : Z)
| LogChatException
| LogCameBackOnline (id : string)
| LogWentOffline (id : string)
| LogTimeRetrieved (addr : string) (t : option time)
| LogGetTimeFailed (addr : string)
| LogDisableAttempted (addr : string) (r : bool)
| LogTimeSet (addr : string) (t : time) (r : bool)
| LogEnableAttempted (addr : string) (r : bool)
| LogSetTimeFailed (addr : string)
| LogTimeDifference (id : string) (diff : Z)
| LogExceedsTolerance (id : string)
| LogSynchronized (id : string)
| LogVerificationSuccessful (id : string)
| LogVerificationFailed (id : string) (diff : Z)
| LogFailedToSynchronize (id : string)
| LogWithinTolerance (id : string)
| LogNoDeviceTime (id : string)
| LogSyncException (id : string)
| LogSyncDisabled
| LogSyncStarting
| LogSyncCompleted (success_count online_count total_devices : nat)
| LogUnexpectedError (id : string)
| LogMainException.

(** The lines printed by the [check] mode. *)
Inductive Printed :=
| PrintChecking
| PrintDevice (id addr : string)
| PrintOnline
| PrintOffline
| PrintDeviceTime (t : option time)
| PrintSystemTime (t : time)
| PrintDifference (diff : Z)
| PrintUnableToCalculate
| PrintExceedsTolerance
| PrintError
| PrintRunningSync
| PrintSyncCompleted.

(** The result of a call: a value, or an exception. *)
Inductive Result (A : Type) :=
| Ret (a : A)
| Raise.
Arguments Ret {A} a.
Arguments Raise {A}.

(** What the script did, with what the outside world answered. *)
Inductive Event :=
| EvConnect (addr : string) (port timeout : Z) (ok : bool)
| EvDisconnect (addr : string) (ok : bool)
| EvGetTime (addr : string) (r : Result (option time))
| EvDisableDevice (addr : string) (r : Result bool)
| EvSetTime (addr : string) (t : time) (r : Result bool)
| EvEnableDevice (addr : string) (r : Result bool)
| EvNow (t : time)
| EvSleep (seconds : Z)
| EvNotify (m : ChatMessage) (id addr : option string)
| EvPost (url : string) (text : FullMessage) (timeout : Z) (r : Result Z)
| EvDbSet (key : string) (v : Value)
| EvDbSave (ok : bool)
| EvLog (lvl : Level) (m : LogMessage)
| EvPrint (p : Printed).

(** ** The outside world *)

(** The answer to the [n]-th request of a run. *)
Record Env := {
  zk_connect : nat -> string -> bool;
  zk_disconnect : nat -> string -> bool;
  zk_get_time : nat -> string -> Result (option time);
  zk_disable_device : nat -> string -> Result bool;
  zk_set_time : nat -> string -> time -> Result bool;
  zk_enable_device : nat -> string -> Result bool;
  datetime_now : nat -> time;
  requests_post : nat -> string -> Result Z;
  file_write_ok : nat -> bool;
}.

(** [status = PickleDB(...)]: the dictionary in memory, the file it was last
    saved to, and the number of requests made to the outside world so far. *)
Record World := {
  db : gmap string Value;
  disk : gmap string Value;
  tick : nat;
}.

(** ** The monad of the script *)

Definition M (A : Type) : Type := Env -> World -> Result A * World * list Event.

Definition ret {A} (a : A) : M A := fun _ w => (Ret a, w, []).

Definition raise {A} : M A := fun _ w => (Raise, w, []).

Definition bind {A B} (m : M A) (k : A -> M B) : M B :=
  fun env w =>
    match m env w with
    | (Ret a, w1, t1) =>
        match k a env w1 with
        | (r, w2, t2) => (r, w2, t1 ++ t2)
        end
    | (Raise, w1, t1) => (Raise, w1, t1)
    end.

(** [try: m except Exception: handler] *)
Definition try_except {A} (m : M A) (handler : M A) : M A :=
  fun env w =>
    match m env w with
    | (Ret a, w1, t1) => (Ret a, w1, t1)
    | (Raise, w1, t1) =>
        match handler env w1 with
        | (r, w2, t2) => (r, w2, t1 ++ t2)
        end
    end.

(** [try: m finally: cleanup]; an exception of [cleanup] replaces the outcome
    of [m]. *)
Definition try_finally {A} (m : M A) (cleanup : M unit) : M A :=
  fun env w =>
    match m env w with
    | (r, w1, t1) =>
        match cleanup env w1 with
        | (Ret _, w2, t2) => (r, w2, t1 ++ t2)
        | (Raise, w2, t2) => (Raise, w2, t1 ++ t2)
        end
    end.

Declare Scope py_scope.
Delimit Scope py_scope with py.
Notation "'let*' x := m 'in' k" := (bind m (fun x => k))
  (at level 10, x name, m at level 100, k at level 200) : py_scope.
Notation "m >> k" := (bind m (fun _ => k))
  (at level 90, right associativity) : py_scope.
Local Open Scope py_scope.

(** One request to the outside world: its number, and the event it leaves. *)
Definition request {A} (answer : Env -> nat -> Result A) (ev : Result A -> Event) : M A :=
  fun env w =>
    let r := answer env (tick w) in
    (r, {| db := db w; disk := disk w; tick := S (tick w) |}, [ev r]).

Definition emit (e : Event) : M unit := fun _ w => (Ret tt, w, [e]).

Definition of_bool (b : bool) : Result unit := if b then Ret tt else Raise.

Definition succeeded {A} (r : Result A) : bool :=
  match r with Ret _ => true | Raise => false end.

(** *** The SDK session ([zk.ZK]) *)

Definition connect (addr : string) (port timeout : Z) : M unit :=
  request (fun env n => of_bool (zk_connect env n addr))
          (fun r => EvConnect addr port timeout (succeeded r)).

Definition disconnect (addr : string) : M unit :=
  request (fun env n => of_bool (zk_disconnect env n addr))
          (fun r => EvDisconnect addr (succeeded r)).

Definition get_time (addr : string) : M (option time) :=
  request (fun env n => zk_get_time env n addr) (EvGetTime addr).

Definition disable_device (addr : string) : M bool :=
  request (fun env n => zk_disable_device env n addr) (EvDisableDevice addr).

Definition set_time (addr : string) (t : time) : M bool :=
  request (fun env n => zk_set_time env n addr t) (EvSetTime addr t).

Definition enable_device (addr : string) : M bool :=
  request (fun env n => zk_enable_device env n addr) (EvEnableDevice addr).

(** *** Clock, webhook, log and console *)

Definition now : M time :=
  request (fun env n => Ret (datetime_now env n))
          (fun r => match r with Ret t => EvNow t | Raise => EvNow 0 end).

Definition sleep (seconds : Z) : M unit := emit (EvSleep seconds).

Definition post (url : string) (text : FullMessage) (timeout : Z) : M Z :=
  request (fun env n => requests_post env n url) (EvPost url text timeout).

Definition log (lvl : Level) (m : LogMessage) : M unit := emit (EvLog lvl m).

Definition print (p : Printed) : M unit := emit (EvPrint p).

(** *** The status file ([pickledb.PickleDB])

    [get] answers [None] for a key that is not there, [set] changes the
    dictionary in memory, and [save] rewrites the file and answers whether
    that worked; none of the three raises. *)

Definition status_get (key : string) : M (option Value) :=
  fun _ w => (Ret (db w !! key), w, []).

Definition status_set (key : string) (v : Value) : M unit :=
  fun _ w =>
    (Ret tt, {| db := <[key := v]> (db w); disk := disk w; tick := tick w |},
     [EvDbSet key v]).

Definition status_save : M bool :=
  fun env w =>
    let ok := file_write_ok env (tick w) in
    (Ret ok,
     {| db := db w; disk := if ok then db w else disk w; tick := S (tick w) |},
     [EvDbSave ok]).

(** ** The script *)

Section Script.
Variable config : LocalConfig.

(** [send_google_chat_message(message, device_id=None, device_ip=None)].
    The event [EvNotify] records that the function was called. *)
Definition send_google_chat_message
    (message : ChatMessage) (device_id device_ip : option string) : M bool :=
  emit (EvNotify message device_id device_ip) >>
  if negb (ENABLE_CHAT_NOTIFICATIONS config) || negb (truthy (GOOGLE_CHAT_WEBHOOK config))
  then ret false
  else if negb (truthy (GOOGLE_CHAT_WEBHOOK config))
  then log WARNING LogWebhookNotConfigured >> ret false
  else
    try_except
      (let* timestamp := now in
       let full_message :=
         if truthy device_id && truthy device_ip
         then DeviceAlert (default "" device_id) (default "" device_ip) timestamp message
         else SystemAlert timestamp message in
       let* status_code := post (default "" (GOOGLE_CHAT_WEBHOOK config)) full_message 10 in
       if status_code =? 200
       then log INFO (LogChatSent message) >> ret true
       else log ERROR (LogChatFailed status_code) >> ret false)
      (log ERROR LogChatException >> ret false).

Definition online_status_key (device : Device) : string :=
  String.append (device_id device) "_online_status".

Definition last_time_sync_key (device : Device) : string :=
  String.append (device_id device) "_last_time_sync".

Definition last_time_sync_run_key : string := "last_time_sync_run".

Definition online : Value := VStr "online".
Definition offline : Value := VStr "offline".

(** [check_device_online_status(device)] *)
Definition check_device_online_status (device : Device) : M bool :=
  let device_id := device_id device in
  let device_ip := ip device in
  let status_key := online_status_key device in
  try_except
    (connect device_ip 4370 5 >>
     disconnect device_ip >>
     let* previous_status := status_get status_key in
     (if bool_decide (previous_status = Some offline) || bool_decide (previous_status = None)
      then
        (if bool_decide (previous_status = Some offline)
         then send_google_chat_message MsgBackOnline (Some device_id) (Some device_ip) >>
              log INFO (LogCameBackOnline device_id)
         else ret tt) >>
        status_set status_key online >>
        status_save >> ret tt
      else ret tt) >>
     ret true)
    (let* previous_status := status_get status_key in
     (if negb (bool_decide (previous_status = Some offline))
      then
        send_google_chat_message MsgOffline (Some device_id) (Some device_ip) >>
        log WARNING (LogWentOffline device_id) >>
        status_set status_key offline >>
        status_save >> ret tt
      else ret tt) >>
     ret false).

(** [get_device_time(ip, port=4370, timeout=30)].  [conn] is set exactly when
    [connect] returned, so the [finally] clause disconnects exactly then. *)
Definition get_device_time (addr : string) : M (option time) :=
  try_except (connect addr 4370 30) (log ERROR (LogGetTimeFailed addr) >> raise) >>
  try_finally
    (try_except
       (let* device_time := get_time addr in
        log INFO (LogTimeRetrieved addr device_time) >>
        ret device_time)
       (log ERROR (LogGetTimeFailed addr) >> raise))
    (disconnect addr).

(** [set_device_time(ip, new_time, port=4370, timeout=30)] *)
Definition set_device_time (addr : string) (new_time : time) : M bool :=
  try_except (connect addr 4370 30) (log ERROR (LogSetTimeFailed addr) >> raise) >>
  try_finally
    (try_except
       (let* disable_result := disable_device addr in
        log INFO (LogDisableAttempted addr disable_result) >>
        let* set_result := set_time addr new_time in
        log INFO (LogTimeSet addr new_time set_result) >>
        let* enable_result := enable_device addr in
        log INFO (LogEnableAttempted addr enable_result) >>
        ret true)
       (log ERROR (LogSetTimeFailed addr) >> raise))
    (disconnect addr).

(** [sync_device_time(device)].  The function returns [True], [False] or,
    where it runs off its end, [None]: [Some true], [Some false], [None]. *)
Definition sync_device_time (device : Device) : M (option bool) :=
  let device_ip := ip device in
  let device_id := device_id device in
  let* is_online := check_device_online_status device in
  if negb is_online then ret (Some false)
  else
    try_except
      (let* system_time := now in
       let* device_time := get_device_time device_ip in
       match device_time with
       | Some device_time =>
           let time_diff := abs_diff system_time device_time in
           log DEBUG (LogTimeDifference device_id time_diff) >>
           if exceeds time_diff (TIME_TOLERANCE_SECONDS config)
           then
             log WARNING (LogExceedsTolerance device_id) >>
             let* set_ok := set_device_time device_ip system_time in
             if set_ok
             then
               log INFO (LogSynchronized device_id) >>
               (if exceeds time_diff 300
                then send_google_chat_message (MsgTimeSynchronized time_diff)
                       (Some device_id) (Some device_ip) >> ret tt
                else ret tt) >>
               sleep 2 >>
               let* updated_device_time := get_device_time device_ip in
               match updated_device_time with
               | Some updated_device_time =>
                   let verification_diff := abs_diff system_time updated_device_time in
                   if negb (exceeds verification_diff (TIME_TOLERANCE_SECONDS config))
                   then log INFO (LogVerificationSuccessful device_id) >> ret (Some true)
                   else log ERROR (LogVerificationFailed device_id verification_diff) >>
                        ret (Some false)
               | None => ret None
               end
             else log ERROR (LogFailedToSynchronize device_id) >> ret (Some false)
           else log DEBUG (LogWithinTolerance device_id) >> ret (Some true)
       | None => log ERROR (LogNoDeviceTime device_id) >> ret (Some false)
       end)
      (log ERROR (LogSyncException device_id) >> ret (Some false)).

(** Truth value of what [sync_device_time] returns. *)
Definition is_true (r : option bool) : bool :=
  match r with Some true => true | _ => false end.

(** The counters [success_count] and [online_count] of [sync_all_devices]. *)
Record Counters := {
  success_count : nat;
  online_count : nat;
}.

(** The body of the loop of [sync_all_devices], for one device.  The one
    [try] of the source is written once for each value the counters can have
    when an exception is raised, so that the handler leaves them as the
    assignments before the exception made them. *)
Definition sync_all_devices_body (device : Device) (c : Counters) : M Counters :=
  let handler (c : Counters) :=
    log ERROR (LogUnexpectedError (device_id device)) >> ret c in
  try_except
    (let* is_online := check_device_online_status device in
     if is_online
     then
       let c1 := {| success_count := success_count c;
                    online_count := S (online_count c) |} in
       try_except
         (let* synced := sync_device_time device in
          if is_true synced
          then
            let c2 := {| success_count := S (success_count c1);
                         online_count := online_count c1 |} in
            try_except
              (let* t := now in
               status_set (last_time_sync_key device) (VTime t) >>
               status_save >> ret c2)
              (handler c2)
          else ret c1)
         (handler c1)
     else ret c)
    (handler c).

(** [for device in config.devices], with the counters threaded through. *)
Fixpoint sync_all_devices_loop (ds : list Device) (c : Counters) : M Counters :=
  match ds with
  | [] => ret c
  | device :: ds =>
      let* c := sync_all_devices_body device c in
      sync_all_devices_loop ds c
  end.

(** [sync_all_devices()] *)
Definition sync_all_devices : M unit :=
  if negb (ENABLE_TIME_SYNC config)
  then log DEBUG LogSyncDisabled >> ret tt
  else
    log DEBUG LogSyncStarting >>
    let total_devices := length (devices config) in
    let* c := sync_all_devices_loop (devices config)
                {| success_count := 0; online_count := 0 |} in
    (if (0 <? success_count c)%nat || negb (online_count c =? total_devices)%nat
     then log INFO (LogSyncCompleted (success_count c) (online_count c) total_devices)
     else ret tt) >>
    let* t := now in
    status_set last_time_sync_run_key (VTime t) >>
    status_save >> ret tt.

(** [main_time_sync()] *)
Definition main_time_sync : M unit :=
  try_except sync_all_devices (log ERROR LogMainException >> ret tt).

(** The body of the loop of the [check] mode, for one device. *)
Definition check_mode_body (device : Device) : M unit :=
  try_except
    (print (PrintDevice (device_id device) (ip device)) >>
     let* is_online := check_device_online_status device in
     if is_online
     then
       print PrintOnline >>
       let* device_time := get_device_time (ip device) in
       let* system_time := now in
       let diff := abs_diff system_time <$> device_time in
       print (PrintDeviceTime device_time) >>
       print (PrintSystemTime system_time) >>
       print (match diff with
              | Some d => if d =? 0 then PrintUnableToCalculate else PrintDifference d
              | None => PrintUnableToCalculate
              end) >>
       match diff with
       | Some d =>
           if negb (d =? 0) && exceeds d (TIME_TOLERANCE_SECONDS config)
           then print PrintExceedsTolerance
           else ret tt
       | None => ret tt
       end
     else print PrintOffline)
    (print PrintError).

Fixpoint check_mode_loop (ds : list Device) : M unit :=
  match ds with
  | [] => ret tt
  | device :: ds => check_mode_body device >> check_mode_loop ds
  end.

(** [python time_sync.py check] *)
Definition check_mode : M unit :=
  print PrintChecking >> check_mode_loop (devices config).

(** [python time_sync.py sync] *)
Definition sync_mode : M unit :=
  print PrintRunningSync >> sync_all_devices >> print PrintSyncCompleted.

End Script.

(** ** Observations on a list of events *)

(** The messages [send_google_chat_message] was called with. *)
Definition notifications : list Event -> list ChatMessage :=
  omap (fun e => match e with EvNotify m _ _ => Some m | _ => None end).

(** The HTTP requests made, with their outcome. *)
Definition posts : list Event -> list (string * Z * Result Z) :=
  omap (fun e => match e with
                 | EvPost url _ timeout r => Some (url, timeout, r)
                 | _ => None
                 end).

(** The sessions opened, with the address and whether it worked. *)
Definition connections : list Event -> list (string * bool) :=
  omap (fun e => match e with EvConnect a _ _ ok => Some (a, ok) | _ => None end).

(** The requests that change a device: disable, set the clock, enable. *)
Definition device_writes : list Event -> list Event :=
  omap (fun e => match e with
                 | EvDisableDevice _ _ | EvSetTime _ _ _ | EvEnableDevice _ _ => Some e
                 | _ => None
                 end).

(** The answers to the requests for a device's clock. *)
Definition get_time_results : list Event -> list (Result (option time)) :=
  omap (fun e => match e with EvGetTime _ r => Some r | _ => None end).

(** The keys of the status dictionary assigned to, with the values. *)
Definition db_writes : list Event -> list (string * Value) :=
  omap (fun e => match e with EvDbSet k v => Some (k, v) | _ => None end).

(** The time differences [sync_device_time] computed and logged. *)
Definition time_differences : list Event -> list Z :=
  omap (fun e => match e with
                 | EvLog _ (LogTimeDifference _ d) => Some d
                 | _ => None
                 end).

(** The attempts to write the status file, with whether it worked. *)
Definition saves : list Event -> list bool :=
  omap (fun e => match e with EvDbSave ok => Some ok | _ => None end).

Definition sleeps : list Event -> list Z :=
  omap (fun e => match e with EvSleep s => Some s | _ => None end).

(** What follows the first [time.sleep]: in [sync_device_time], the
    verification of a correction. *)
Fixpoint after_sleep (tr : list Event) : list Event :=
  match tr with
  | [] => []
  | EvSleep _ :: tr => tr
  | _ :: tr => after_sleep tr
  end.

(** The events of [send_google_chat_message]. *)
Definition chat_event (e : Event) : Prop :=
  match e with
  | EvNotify _ _ _ | EvNow _ | EvPost _ _ _ _ => True
  | EvLog _ (LogChatSent _) | EvLog _ (LogChatFailed _) => True
  | EvLog _ LogChatException | EvLog _ LogWebhookNotConfigured => True
  | _ => False
  end.

(** The events of [check_device_online_status device]. *)
Definition probe_event (device : Device) (e : Event) : Prop :=
  match e with
  | EvConnect a port timeout _ => a = ip device /\ port = 4370 /\ timeout = 5
  | EvDisconnect a _ => a = ip device
  | EvDbSet k v => k = online_status_key device /\ (v = online \/ v = offline)
  | EvDbSave _ => True
  | EvLog _ (LogCameBackOnline _) | EvLog _ (LogWentOffline _) => True
  | _ => chat_event e
  end.

(** ** Reasoning about runs *)

(** [wp m env w Q]: the run of [m] from [w] ends in a result, a world and a
    list of events that satisfy [Q]. *)
Definition wp {A} (m : M A) (env : Env) (w : World)
    (Q : Result A -> World -> list Event -> Prop) : Prop :=
  match m env w with
  | (r, w', tr) => Q r w' tr
  end.

Definition tick_up (w : World) : World :=
  {| db := db w; disk := disk w; tick := S (tick w) |}.

(** ** Vocabulary of the statements *)

(** The notifier makes its HTTP request when it is enabled and a webhook is
    configured. *)
Definition notifier_ready (config : LocalConfig) : bool :=
  ENABLE_CHAT_NOTIFICATIONS config && truthy (GOOGLE_CHAT_WEBHOOK config).

Definition webhook_url (config : LocalConfig) : string :=
  default "" (GOOGLE_CHAT_WEBHOOK config).

(** Whether [check_device_online_status] assigns to the status key, and
    whether it calls the notifier, for the status it finds and the
    reachability it observes. *)
Definition status_changes (previous_status : option Value) (reachable : bool) : bool :=
  if reachable
  then bool_decide (previous_status = Some offline) || bool_decide (previous_status = None)
  else negb (bool_decide (previous_status = Some offline)).

Definition status_notifies (previous_status : option Value) (reachable : bool) : bool :=
  if reachable
  then bool_decide (previous_status = Some offline)
  else negb (bool_decide (previous_status = Some offline)).

Definition status_of (reachable : bool) : Value :=
  if reachable then online else offline.

Definition transition_message (reachable : bool) : ChatMessage :=
  if reachable then MsgBackOnline else MsgOffline.

(** What the check observes: the session opens and closes. *)
Definition reachable_at (env : Env) (n : nat) (addr : string) : bool :=
  zk_connect env n addr && zk_disconnect env (S n) addr.

(** The last character of a string: the three families of keys of the
    status file end in different characters. *)
Fixpoint last_ascii (s : string) : option Ascii.ascii :=
  match s with
  | EmptyString => None
  | String c EmptyString => Some c
  | String _ s => last_ascii s
  end.

(** The tolerance in microseconds. *)
Definition tolerance_usec (config : LocalConfig) : Z :=
  TIME_TOLERANCE_SECONDS config * usec_per_sec.

(** The two ways a cycle of a device succeeds.  In the first the clock of
    the device is read once, the difference to the local clock is within the
    tolerance, and nothing is written to the device. *)
Definition no_correction_needed (config : LocalConfig) (tr : list Event) : Prop :=
  exists system_time device_time,
    time_differences tr = [abs_diff system_time device_time] /\
    get_time_results tr = [Ret (Some device_time)] /\
    In (EvNow system_time) tr /\
    abs_diff system_time device_time <= tolerance_usec config /\
    device_writes tr = [] /\
    sleeps tr = [].

(** In the second the difference exceeds the tolerance, the device is
    disabled, set to the local time and enabled, and the clock read after the
    delay is within the tolerance of that local time. *)
Definition correction_verified (config : LocalConfig) (device : Device)
    (tr : list Event) : Prop :=
  exists system_time device_time updated_device_time d s e,
    time_differences tr = [abs_diff system_time device_time] /\
    tolerance_usec config < abs_diff system_time device_time /\
    device_writes tr =
      [EvDisableDevice (ip device) (Ret d);
       EvSetTime (ip device) system_time (Ret s);
       EvEnableDevice (ip device) (Ret e)] /\
    sleeps tr = [2] /\
    get_time_results tr = [Ret (Some device_time); Ret (Some updated_device_time)] /\
    get_time_results (after_sleep tr) = [Ret (Some updated_device_time)] /\
    device_writes (after_sleep tr) = [] /\
    abs_diff system_time updated_device_time <= tolerance_usec config.

(** Events that neither read nor write the clock of a device, compute no
    time difference and do not sleep. *)
Definition quiet (tr : list Event) : Prop :=
  time_differences tr = [] /\ get_time_results tr = [] /\
  device_writes tr = [] /\ sleeps tr = [].

(** The measurement of [sync_device_time]: the local clock is read, then a
    session of 30 seconds is opened to the device and its clock is read; no
    reading of that clock and no request that changes the device comes
    before. *)
Definition measurement (device : Device) (system_time device_time : time)
    (tr : list Event) : Prop :=
  exists pre post,
    tr = pre ++ EvNow system_time
             :: EvConnect (ip device) 4370 30 true
             :: EvGetTime (ip device) (Ret (Some device_time))
             :: post /\
    get_time_results pre = [] /\
    device_writes pre = [].

(** ** Sample configuration, outside worlds and status files *)

Definition device_1 : Device := {| device_id := "1"; ip := "192.168.1.201" |}.

(** A configuration with one device, a webhook, and every default. *)
Definition config_1 : LocalConfig :=
  {| devices := [device_1];
     cfg_TIME_SYNC_FREQUENCY := None;
     cfg_TIME_TOLERANCE_SECONDS := None;
     cfg_ENABLE_TIME_SYNC := None;
     cfg_GOOGLE_CHAT_WEBHOOK := Some "https://chat.example/v1/spaces/A/messages";
     cfg_ENABLE_CHAT_NOTIFICATIONS := None |}.

(** An outside world in which the device is reachable or not throughout, its
    clock reads [device_clock n] at request [n], the local clock stands at
    [local_clock], the device accepts every command, the webhook answers
    200 and the status file can be written. *)
Definition steady_env (reachable : bool) (device_clock : nat -> time)
    (local_clock : time) : Env :=
  {| zk_connect := fun _ _ => reachable;
     zk_disconnect := fun _ _ => true;
     zk_get_time := fun n _ => Ret (Some (device_clock n));
     zk_disable_device := fun _ _ => Ret true;
     zk_set_time := fun _ _ _ => Ret true;
     zk_enable_device := fun _ _ => Ret true;
     datetime_now := fun _ => local_clock;
     requests_post := fun _ _ => Ret 200;
     file_write_ok := fun _ => true |}.

Definition noon : time := 43200 * usec_per_sec.

(** The device cannot be reached. *)
Definition env_down : Env := steady_env false (fun _ => noon) noon.

(** The device is reachable and five seconds behind. *)
Definition env_in_sync : Env := steady_env true (fun _ => noon - 5 * usec_per_sec) noon.

(** The device is reachable, 400 seconds behind, and takes the correction:
    from the tenth request on its clock is five seconds behind. *)
Definition env_corrected : Env :=
  steady_env true
    (fun n => if (n <? 10)%nat then noon - 400 * usec_per_sec
              else noon - 5 * usec_per_sec)
    noon.

(** The device is reachable, 400 seconds behind, and stays so. *)
Definition env_stuck : Env := steady_env true (fun _ => noon - 400 * usec_per_sec) noon.

(** The device is reachable; the local clock advances by a microsecond with
    every request, and when [sync_device_time] reads it the clock of the
    device is 60 seconds behind, to the microsecond. *)
Definition env_boundary : Env :=
  {| zk_connect := fun _ _ => true;
     zk_disconnect := fun _ _ => true;
     zk_get_time := fun _ _ => Ret (Some (noon + 5 - 60 * usec_per_sec));
     zk_disable_device := fun _ _ => Ret true;
     zk_set_time := fun _ _ _ => Ret true;
     zk_enable_device := fun _ _ => Ret true;
     datetime_now := fun n => noon + Z.of_nat n;
     requests_post := fun _ _ => Ret 200;
     file_write_ok := fun _ => true |}.

(** No status stored yet. *)
Definition world_0 : World := {| db := ∅; disk := ∅; tick := 0 |}.

(** The device was last seen online. *)
Definition world_online : World :=
  {| db := {[ "1_online_status" := online ]};
     disk := {[ "1_online_status" := online ]};
     tick := 0 |}.

Definition counters_0 : Counters := {| success_count := 0; online_count := 0 |}.

(** ** More of the script, and more observations *)

(** [should_run_time_sync()] *)
Definition should_run_time_sync (config : LocalConfig) : bool :=
  if negb (ENABLE_TIME_SYNC config) then false else true.

(** The sessions closed, with the address and whether closing worked. *)
Definition disconnections : list Event -> list (string * bool) :=
  omap (fun e => match e with EvDisconnect a ok => Some (a, ok) | _ => None end).

(** The lines printed. *)
Definition printed : list Event -> list Printed :=
  omap (fun e => match e with EvPrint p => Some p | _ => None end).

(** The log entries. *)
Definition logged : list Event -> list (Level * LogMessage) :=
  omap (fun e => match e with EvLog lvl m => Some (lvl, m) | _ => None end).

(** The keys assigned a point in time: in [sync_all_devices] the last-sync
    keys and the key of the last run. *)
Definition timestamp_writes : list Event -> list string :=
  omap (fun e => match e with EvDbSet k (VTime _) => Some k | _ => None end).

(** The summaries [sync_all_devices] logged: the devices synchronised, the
    devices online and the devices configured. *)
Definition summaries : list Event -> list (nat * nat * nat) :=
  omap (fun e => match e with
                 | EvLog _ (LogSyncCompleted s o t) => Some (s, o, t)
                 | _ => None
                 end).

(** The devices the check mode printed a heading for. *)
Definition headings : list Event -> list (string * string) :=
  omap (fun e => match e with
                 | EvPrint (PrintDevice id a) => Some (id, a)
                 | _ => None
                 end).

(** The discipline of sessions.  [sessions s tr] follows the events [tr]
    from the state [s] (the address of the open session, if one is open) and
    gives the state they end in; it gives [None] when a session is opened
    while one is open, when a session is closed that is not open, or when a
    request is sent to a device outside a session with that device.  An
    attempt to close a session ends it, whether it worked or not. *)
Fixpoint sessions (s : option string) (tr : list Event) : option (option string) :=
  match tr with
  | [] => Some s
  | e :: tr =>
      match e with
      | EvConnect a _ _ ok =>
          match s with
          | None => sessions (if ok then Some a else None) tr
          | Some _ => None
          end
      | EvDisconnect a _ =>
          match s with
          | Some b => if bool_decide (a = b) then sessions None tr else None
          | None => None
          end
      | EvGetTime a _ | EvDisableDevice a _ | EvSetTime a _ _ | EvEnableDevice a _ =>
          match s with
          | Some b => if bool_decide (a = b) then sessions s tr else None
          | None => None
          end
      | _ => sessions s tr
      end
  end.

(** The five ways the commands of [set_device_time] can go: no session; the
    device refuses to be disabled; it refuses the time; it refuses to be
    enabled; it takes all three. *)
Inductive CorrectionShape (addr : string) (new_time : time) : list Event -> Prop :=
| NoCommand :
    CorrectionShape addr new_time []
| DisableRaised :
    CorrectionShape addr new_time [EvDisableDevice addr Raise]
| SetTimeRaised d :
    CorrectionShape addr new_time
      [EvDisableDevice addr (Ret d); EvSetTime addr new_time Raise]
| EnableRaised d s :
    CorrectionShape addr new_time
      [EvDisableDevice addr (Ret d); EvSetTime addr new_time (Ret s);
       EvEnableDevice addr Raise]
| AllReturned d s e :
    CorrectionShape addr new_time
      [EvDisableDevice addr (Ret d); EvSetTime addr new_time (Ret s);
       EvEnableDevice addr (Ret e)].

(** The device is reachable and 400 seconds behind; once corrected, it
    answers the request for its clock with no time. *)
Definition env_blank : Env :=
  {| zk_connect := fun _ _ => true;
     zk_disconnect := fun _ _ => true;
     zk_get_time := fun n _ =>
       if (n <? 10)%nat then Ret (Some (noon - 400 * usec_per_sec)) else Ret None;
     zk_disable_device := fun _ _ => Ret true;
     zk_set_time := fun _ _ _ => Ret true;
     zk_enable_device := fun _ _ => Ret true;
     datetime_now := fun _ => noon;
     requests_post := fun _ _ => Ret 200;
     file_write_ok := fun _ => true |}.

(** The device answers the first check and no request after it. *)
Definition env_flapping : Env :=
  {| zk_connect := fun n _ => (n <? 1)%nat;
     zk_disconnect := fun _ _ => true;
     zk_get_time := fun _ _ => Ret (Some noon);
     zk_disable_device := fun _ _ => Ret true;
     zk_set_time := fun _ _ _ => Ret true;
     zk_enable_device := fun _ _ => Ret true;
     datetime_now := fun _ => noon;
     requests_post := fun _ _ => Ret 200;
     file_write_ok := fun _ => true |}.

(** The device answers [False] to every command. *)
Definition env_refusing : Env :=
  {| zk_connect := fun _ _ => true;
     zk_disconnect := fun _ _ => true;
     zk_get_time := fun _ _ => Ret (Some noon);
     zk_disable_device := fun _ _ => Ret false;
     zk_set_time := fun _ _ _ => Ret false;
     zk_enable_device := fun _ _ => Ret false;
     datetime_now := fun _ => noon;
     requests_post := fun _ _ => Ret 200;
     file_write_ok := fun _ => true |}.

(** The device is 400 seconds behind, lets itself be disabled and then
    raises on every command. *)
Definition env_half_way : Env :=
  {| zk_connect := fun _ _ => true;
     zk_disconnect := fun _ _ => true;
     zk_get_time := fun _ _ => Ret (Some (noon - 400 * usec_per_sec));
     zk_disable_device := fun _ _ => Ret true;
     zk_set_time := fun _ _ _ => Raise;
     zk_enable_device := fun _ _ => Raise;
     datetime_now := fun _ => noon;
     requests_post := fun _ _ => Ret 200;
     file_write_ok := fun _ => true |}.

(** ** Rules for runs *)

Section Wp.
Context {A B : Type}.
Implicit Types (env : Env) (w : World).

Lemma wp_run (m : M A) env w Q r w' tr :
  wp m env w Q -> m env w = (r, w', tr) -> Q r w' tr.
Proof. unfold wp. intros H E. now rewrite E in H. Qed.

Lemma wp_mono (m : M A) env w (Q Q' : Result A -> World -> list Event -> Prop) :
  wp m env w Q -> (forall r w' tr, Q r w' tr -> Q' r w' tr) -> wp m env w Q'.
Proof. unfold wp. destruct (m env w) as [[r w'] tr]. auto. Qed.

Lemma wp_ret (a : A) env w Q : Q (Ret a) w [] -> wp (ret a) env w Q.
Proof. trivial. Qed.

Lemma wp_raise env w (Q : Result A -> World -> list Event -> Prop) :
  Q Raise w [] -> wp raise env w Q.
Proof. trivial. Qed.

Lemma wp_bind (m : M A) (k : A -> M B) env w Q :
  wp m env w (fun r w1 t1 =>
    match r with
    | Ret a => wp (k a) env w1 (fun r' w2 t2 => Q r' w2 (t1 ++ t2))
    | Raise => Q Raise w1 t1
    end) ->
  wp (bind m k) env w Q.
Proof.
  unfold wp, bind. destruct (m env w) as [[[a|] w1] t1]; [|trivial].
  destruct (k a env w1) as [[r w2] t2]. trivial.
Qed.

Lemma wp_try_except (m handler : M A) env w Q :
  wp m env w (fun r w1 t1 =>
    match r with
    | Ret a => Q (Ret a) w1 t1
    | Raise => wp handler env w1 (fun r' w2 t2 => Q r' w2 (t1 ++ t2))
    end) ->
  wp (try_except m handler) env w Q.
Proof.
  unfold wp, try_except. destruct (m env w) as [[[a|] w1] t1]; [trivial|].
  destruct (handler env w1) as [[r w2] t2]. trivial.
Qed.

Lemma wp_try_finally (m : M A) (cleanup : M unit) env w Q :
  wp m env w (fun r w1 t1 =>
    wp cleanup env w1 (fun c w2 t2 =>
      match c with
      | Ret _ => Q r w2 (t1 ++ t2)
      | Raise => Q Raise w2 (t1 ++ t2)
      end)) ->
  wp (try_finally m cleanup) env w Q.
Proof.
  unfold wp, try_finally. destruct (m env w) as [[r w1] t1].
  destruct (cleanup env w1) as [[[[]|] w2] t2]; trivial.
Qed.

Lemma wp_request (answer : Env -> nat -> Result A) ev env w Q :
  Q (answer env (tick w)) (tick_up w) [ev (answer env (tick w))] ->
  wp (request answer ev) env w Q.
Proof. trivial. Qed.
End Wp.

Lemma wp_emit e env w Q : Q (Ret tt) w [e] -> wp (emit e) env w Q.
Proof. trivial. Qed.

Lemma wp_status_get key env w Q :
  Q (Ret (db w !! key)) w [] -> wp (status_get key) env w Q.
Proof. trivial. Qed.

Lemma wp_status_set key v env w Q :
  Q (Ret tt) {| db := <[key := v]> (db w); disk := disk w; tick := tick w |}
    [EvDbSet key v] ->
  wp (status_set key v) env w Q.
Proof. trivial. Qed.

Lemma wp_status_save env w Q :
  Q (Ret (file_write_ok env (tick w)))
    {| db := db w;
       disk := if file_write_ok env (tick w) then db w else disk w;
       tick := S (tick w) |}
    [EvDbSave (file_write_ok env (tick w))] ->
  wp status_save env w Q.
Proof. trivial. Qed.

(** One step of a run. *)
Ltac wp_prim :=
  lazymatch goal with
  | |- wp (ret _) _ _ _ => apply wp_ret
  | |- wp raise _ _ _ => apply wp_raise
  | |- wp (bind _ _) _ _ _ => apply wp_bind
  | |- wp (try_except _ _) _ _ _ => apply wp_try_except
  | |- wp (try_finally _ _) _ _ _ => apply wp_try_finally
  | |- wp (request _ _) _ _ _ => apply wp_request
  | |- wp (emit _) _ _ _ => apply wp_emit
  | |- wp (log _ _) _ _ _ => apply wp_emit
  | |- wp (print _) _ _ _ => apply wp_emit
  | |- wp (sleep _) _ _ _ => apply wp_emit
  | |- wp (status_get _) _ _ _ => apply wp_status_get
  | |- wp (status_set _ _) _ _ _ => apply wp_status_set
  | |- wp status_save _ _ _ => apply wp_status_save
  | |- wp now _ _ _ => apply wp_request
  | |- wp (connect _ _ _) _ _ _ => apply wp_request
  | |- wp (disconnect _) _ _ _ => apply wp_request
  | |- wp (get_time _) _ _ _ => apply wp_request
  | |- wp (disable_device _) _ _ _ => apply wp_request
  | |- wp (set_time _ _) _ _ _ => apply wp_request
  | |- wp (enable_device _) _ _ _ => apply wp_request
  | |- wp (post _ _ _) _ _ _ => apply wp_request
  end; cbv beta; cbn [db disk tick tick_up succeeded is_true negb] in *.

(** A case distinction on what decides the next step. *)
Ltac wp_case :=
  lazymatch goal with
  | |- wp (if ?b then _ else _) _ _ _ => destruct b eqn:?
  | |- wp (match ?x with _ => _ end) _ _ _ => destruct x eqn:?
  | |- match of_bool ?b with _ => _ end => destruct b eqn:?; cbn [of_bool]
  | |- match ?r with Ret _ => _ | Raise => _ end => destruct r eqn:?
  end.

Ltac wp_go := repeat (first [wp_prim | wp_case]).

(** Observations of a list of events put together from known events and
    lists of which the observations are known. *)
Ltac obs :=
  unfold notifications, posts, connections, device_writes, get_time_results,
    db_writes, time_differences, sleeps, saves in *;
  rewrite ?omap_app;
  cbn [omap list_omap app];
  repeat match goal with
    | H : omap ?f ?tr = _ |- context [omap ?f ?tr] => rewrite H
    end;
  cbn [app].

(** An observation of a list of events is empty when no event of the list
    is of the kind observed. *)
Lemma omap_none_Forall {X} (f : Event -> option X) (P : Event -> Prop) tr :
  Forall P tr -> (forall e, P e -> f e = None) -> omap f tr = [].
Proof.
  induction 1 as [|e tr He _ IH]; intros Hf; [reflexivity|].
  cbn. rewrite (Hf e He). auto.
Qed.

Lemma after_sleep_app tr1 tr2 :
  sleeps tr1 = [] -> after_sleep (tr1 ++ tr2) = after_sleep tr2.
Proof.
  induction tr1 as [|e tr1 IH]; [reflexivity|].
  destruct e; cbn; try discriminate; auto.
Qed.

Lemma chat_event_probe device e : chat_event e -> probe_event device e.
Proof. destruct e; cbn; try tauto. destruct m; cbn; tauto. Qed.

(** ** The notifier *)

(** A call of [send_google_chat_message] returns, changes nothing in the
    status dictionary, and makes one HTTP request when the notifier is
    enabled and configured and none otherwise. *)
Lemma send_google_chat_message_wp config m id a env w :
  wp (send_google_chat_message config m id a) env w (fun r w' tr =>
    exists b, r = Ret b /\
      db w' = db w /\ disk w' = disk w /\ (tick w <= tick w')%nat /\
      Forall chat_event tr /\ notifications tr = [m] /\
      if notifier_ready config
      then posts tr = [(webhook_url config, 10,
                        requests_post env (S (tick w)) (webhook_url config))] /\
           (b = true <-> requests_post env (S (tick w)) (webhook_url config) = Ret 200)
      else posts tr = [] /\ b = false).
Proof.
  unfold send_google_chat_message, notifier_ready, webhook_url.
  destruct (ENABLE_CHAT_NOTIFICATIONS config), (truthy (GOOGLE_CHAT_WEBHOOK config));
    cbn [negb orb andb]; wp_go; cbn.
  all: try match goal with
    | H : (?s =? 200) = true |- _ => apply Z.eqb_eq in H; subst s
    | H : (?s =? 200) = false |- _ => apply Z.eqb_neq in H
    end.
  all: cbn [tick tick_up] in *; eexists; split; [reflexivity|].
  all: repeat match goal with |- _ /\ _ => split end;
    try reflexivity; try lia; try (repeat constructor; fail).
  all: try congruence; try (split; congruence).
  all: split; [intros _|]; congruence.
Qed.

(** ** The reachability check *)

(** What is not among the events of the notifier. *)
Lemma chat_event_obs tr :
  Forall chat_event tr ->
  db_writes tr = [] /\ device_writes tr = [] /\ get_time_results tr = [] /\
  time_differences tr = [] /\ sleeps tr = [] /\ connections tr = [] /\
  saves tr = [].
Proof.
  intros H. repeat split; apply (omap_none_Forall _ _ _ H);
    intros [] He; try reflexivity; try (destruct He; fail);
    cbn in He; destruct m; (reflexivity || destruct He).
Qed.

(** What is not among the events of the reachability check. *)
Lemma probe_event_obs device tr :
  Forall (probe_event device) tr ->
  device_writes tr = [] /\ get_time_results tr = [] /\
  time_differences tr = [] /\ sleeps tr = [].
Proof.
  intros H. repeat split; apply (omap_none_Forall _ _ _ H);
    intros [] He; try reflexivity; try (destruct He; fail);
    cbn in He; destruct m; (reflexivity || destruct He).
Qed.

Ltac wp_send :=
  lazymatch goal with
  | |- wp (send_google_chat_message _ _ _ _) _ _ _ =>
      eapply wp_mono; [apply send_google_chat_message_wp|];
      let H := fresh "Hchat" in
      cbv beta; intros ? ? ? (? & -> & ? & ? & ? & H & ? & ?);
      destruct (chat_event_obs _ H) as (? & ? & ? & ? & ? & ? & ?)
  end.

(** Events of one kind, for a list put together from known events and lists
    known to be of that kind or of the notifier. *)
Ltac solve_events :=
  rewrite ?Forall_app, ?Forall_cons, ?Forall_nil;
  repeat match goal with |- _ /\ _ => split end;
  first [ exact I
        | assumption
        | eapply Forall_impl; [eassumption | intros ?; apply chat_event_probe]
        | cbn; tauto ].

(** The cases of a comparison the run depends on. *)
Ltac wp_decide :=
  match goal with
  | |- context [bool_decide ?P] =>
      destruct (decide P);
      [ rewrite !(bool_decide_eq_true_2 P) by assumption
      | rewrite !(bool_decide_eq_false_2 P) by assumption ]
  end.

Lemma check_device_online_status_wp config device env w :
  wp (check_device_online_status config device) env w (fun r w' tr =>
    let key := online_status_key device in
    let previous := db w !! key in
    let reachable := reachable_at env (tick w) (ip device) in
    r = Ret reachable /\
    Forall (probe_event device) tr /\
    (tick w <= tick w')%nat /\
    db w' = (if status_changes previous reachable
             then <[key := status_of reachable]> (db w) else db w) /\
    db_writes tr = (if status_changes previous reachable
                    then [(key, status_of reachable)] else []) /\
    notifications tr = (if status_notifies previous reachable
                        then [transition_message reachable] else []) /\
    (length (posts tr) <= length (notifications tr))%nat /\
    exists ok,
      saves tr = (if status_changes previous reachable then [ok] else []) /\
      disk w' = (if status_changes previous reachable && ok
                 then db w' else disk w) /\
      connections tr = [(ip device, zk_connect env (tick w) (ip device))] /\
      length (posts tr) =
        (if notifier_ready config then length (notifications tr) else 0%nat)).
Proof.
  unfold check_device_online_status, status_changes, status_notifies, reachable_at.
  repeat first [wp_prim | wp_send | wp_decide | wp_case].
  all: cbn [andb negb orb] in *.
  all: repeat match goal with
    | H : ?b = _ |- context [?b] => rewrite H
    | H : db ?w' = _ |- context [db ?w'] => rewrite H
    | H : disk ?w' = _ |- context [disk ?w'] => rewrite H
    end.
  all: cbn [andb negb orb status_of transition_message] in *.
  all: repeat match goal with |- _ /\ _ => split end; try reflexivity; try lia.
  all: try (solve_events; fail).
  all: try (obs; reflexivity).
  all: try (obs; match goal with
                 | H : if ?c then _ else _ |- _ =>
                     destruct c; destruct H as [H ?]; rewrite ?H; cbn; lia
                 end).
  all: first [ exists true; obs; split; [reflexivity|]; split; [reflexivity|];
               split; [reflexivity|]
             | eexists; obs; split; [reflexivity|]; split; [reflexivity|];
               split; [reflexivity|] ].
  all: try (destruct (notifier_ready config); reflexivity).
  all: match goal with
       | H : if notifier_ready ?c then _ else _ |- _ =>
           destruct (notifier_ready c); destruct H as [H ?]; rewrite ?H; reflexivity
       end.
Qed.

(** The two statuses are different values, and neither is "no status". *)
Lemma status_changes_same (previous reachable : bool) :
  status_changes (Some (status_of previous)) reachable = negb (Bool.eqb previous reachable).
Proof. now destruct previous, reachable. Qed.

Lemma status_notifies_same (previous reachable : bool) :
  status_notifies (Some (status_of previous)) reachable = negb (Bool.eqb previous reachable).
Proof. now destruct previous, reachable. Qed.

Lemma status_changes_none (reachable : bool) : status_changes None reachable = true.
Proof. now destruct reachable. Qed.

Lemma status_notifies_none (reachable : bool) :
  status_notifies None reachable = negb reachable.
Proof. now destruct reachable. Qed.

(** C1.  A check that finds the stored status "online" or "offline" and
    observes the other state calls the notifier exactly once and stores the
    observed state; a check that observes the stored state calls no notifier
    and assigns nothing.  In particular, once a check has found the device
    unreachable, a following check that finds it unreachable again sends
    nothing. *)
Theorem check_device_online_status_transition config device env w (previous : bool) :
  db w !! online_status_key device = Some (status_of previous) ->
  exists reachable w' tr,
    check_device_online_status config device env w = (Ret reachable, w', tr) /\
    reachable = reachable_at env (tick w) (ip device) /\
    (if Bool.eqb previous reachable
     then notifications tr = [] /\ posts tr = [] /\ db_writes tr = [] /\ db w' = db w
     else notifications tr = [transition_message reachable] /\
          (length (posts tr) <= 1)%nat /\
          db w' !! online_status_key device = Some (status_of reachable)) /\
    (reachable = false ->
     forall r2 w2 tr2,
       check_device_online_status config device env w' = (r2, w2, tr2) ->
       r2 = Ret false ->
       notifications tr2 = [] /\ posts tr2 = [] /\ db w2 = db w').
Proof.
  intros Hprev.
  pose proof (check_device_online_status_wp config device env w) as W.
  unfold wp in W.
  destruct (check_device_online_status config device env w) as [[r w'] tr].
  cbv zeta in W. destruct W as (-> & _ & _ & Hdb & Hw & Hn & Hp & _).
  rewrite Hprev, status_changes_same in Hdb, Hw.
  rewrite Hprev, status_notifies_same in Hn.
  eexists _, w', tr. split; [reflexivity|]. split; [reflexivity|].
  set (reachable := reachable_at env (tick w) (ip device)) in *.
  assert (Hnow : db w' !! online_status_key device = Some (status_of reachable)).
  { rewrite Hdb. destruct (Bool.eqb previous reachable) eqn:E; cbn [negb].
    - apply Bool.eqb_prop in E. now subst.
    - apply lookup_insert_eq. }
  split.
  - destruct (Bool.eqb previous reachable); cbn [negb] in *.
    + rewrite Hn in Hp. destruct (posts tr); [auto | cbn in Hp; lia].
    + rewrite Hn in Hp. auto.
  - intros Hr r2 w2 tr2 E2 ->. rewrite Hr in Hnow.
    pose proof (check_device_online_status_wp config device env w') as W2.
    unfold wp in W2. rewrite E2 in W2. cbv zeta in W2.
    destruct W2 as (Hr2 & _ & _ & Hdb2 & _ & Hn2 & Hp2 & _).
    injection Hr2 as Hr2. rewrite <- Hr2, Hnow in Hdb2, Hn2.
    rewrite (status_changes_same false false) in Hdb2.
    rewrite (status_notifies_same false false) in Hn2.
    cbn [Bool.eqb negb] in Hdb2, Hn2. rewrite Hn2 in Hp2.
    destruct (posts tr2); [auto | cbn in Hp2; lia].
Qed.

(** C3.  A check that finds the device unreachable while the stored status
    is anything but "offline" (no status included) assigns "offline", writes
    the status file and calls the notifier once, with the OFFLINE message;
    the notifier makes its one HTTP request when it is enabled and
    configured, and none otherwise. *)
Theorem check_device_online_status_goes_offline config device env w :
  reachable_at env (tick w) (ip device) = false ->
  db w !! online_status_key device <> Some offline ->
  exists w' tr ok,
    check_device_online_status config device env w = (Ret false, w', tr) /\
    db w' = <[online_status_key device := offline]> (db w) /\
    db_writes tr = [(online_status_key device, offline)] /\
    saves tr = [ok] /\
    (ok = true -> disk w' !! online_status_key device = Some offline) /\
    notifications tr = [MsgOffline] /\
    length (posts tr) = (if notifier_ready config then 1 else 0)%nat.
Proof.
  intros Hr Hprev.
  pose proof (check_device_online_status_wp config device env w) as W.
  unfold wp in W.
  destruct (check_device_online_status config device env w) as [[r w'] tr].
  cbv zeta in W. destruct W as (-> & _ & _ & Hdb & Hw & Hn & _ & ok & Hs & Hd & _ & Hp).
  rewrite Hr in *. unfold status_changes, status_notifies in *.
  rewrite bool_decide_eq_false_2 in * by assumption. cbn in Hdb, Hw, Hn, Hs, Hd.
  exists w', tr, ok. repeat split; auto.
  - intros ->. rewrite Hd, Hdb. apply lookup_insert_eq.
  - rewrite Hp, Hn. reflexivity.
Qed.

(** C9.  A check that finds the device reachable while there is no stored
    status calls no notifier and makes no HTTP request, assigns "online" and
    writes the status file. *)
Theorem check_device_online_status_first_online config device env w :
  reachable_at env (tick w) (ip device) = true ->
  db w !! online_status_key device = None ->
  exists w' tr ok,
    check_device_online_status config device env w = (Ret true, w', tr) /\
    notifications tr = [] /\ posts tr = [] /\
    db w' = <[online_status_key device := online]> (db w) /\
    db_writes tr = [(online_status_key device, online)] /\
    saves tr = [ok] /\
    (ok = true -> disk w' !! online_status_key device = Some online).
Proof.
  intros Hr Hprev.
  pose proof (check_device_online_status_wp config device env w) as W.
  unfold wp in W.
  destruct (check_device_online_status config device env w) as [[r w'] tr].
  cbv zeta in W. destruct W as (-> & _ & _ & Hdb & Hw & Hn & Hp & ok & Hs & Hd & _).
  rewrite Hr, Hprev, ?status_changes_none, ?status_notifies_none in *.
  cbn [negb andb status_of] in *.
  exists w', tr, ok. repeat split; auto.
  - rewrite Hn in Hp. destruct (posts tr); [auto | cbn in Hp; lia].
  - intros ->. rewrite Hd, Hdb. apply lookup_insert_eq.
Qed.

(** C8.  [send_google_chat_message] never raises.  It returns [False]
    without an HTTP request when notifications are disabled or no webhook is
    configured; otherwise it makes one HTTP request, to the webhook with a
    timeout of 10 seconds, and returns [True] exactly when the answer has
    status 200: an answer with another status and an exception of the request
    both give [False]. *)
Theorem send_google_chat_message_result config m id a env w :
  exists b w' tr,
    send_google_chat_message config m id a env w = (Ret b, w', tr) /\
    (ENABLE_CHAT_NOTIFICATIONS config = false \/ truthy (GOOGLE_CHAT_WEBHOOK config) = false ->
     b = false /\ posts tr = []) /\
    (ENABLE_CHAT_NOTIFICATIONS config = true /\ truthy (GOOGLE_CHAT_WEBHOOK config) = true ->
     exists r, posts tr = [(webhook_url config, 10, r)] /\
       r = requests_post env (S (tick w)) (webhook_url config)) /\
    (b = true <-> exists url, posts tr = [(url, 10, Ret 200)]) /\
    (forall url status_code,
       In (url, 10, Ret status_code) (posts tr) -> status_code <> 200 -> b = false) /\
    (forall url, In (url, 10, Raise) (posts tr) -> b = false).
Proof.
  pose proof (send_google_chat_message_wp config m id a env w) as W.
  unfold wp in W.
  destruct (send_google_chat_message config m id a env w) as [[r w'] tr].
  destruct W as (b & -> & _ & _ & _ & _ & _ & H).
  exists b, w', tr. split; [reflexivity|].
  unfold notifier_ready in H.
  destruct (ENABLE_CHAT_NOTIFICATIONS config), (truthy (GOOGLE_CHAT_WEBHOOK config));
    cbn [andb] in H; destruct H as [Hp Hb]; rewrite Hp.
  2-4: subst b; split; [tauto|]; split; [intros [? ?]; discriminate|];
       split; [split; [discriminate | intros [? ?]; discriminate]|];
       split; [intros ? ? []|intros ? []].
  split; [intros [|]; discriminate|].
  split; [intros _; eauto|].
  split; [split|split].
  - intros ->. rewrite (proj1 Hb eq_refl). eauto.
  - intros [url E]. apply Hb. congruence.
  - intros url code [E|[]] Hc. destruct b; [|reflexivity].
    exfalso. apply Hc. rewrite (proj1 Hb eq_refl) in E. congruence.
  - intros url [E|[]]. destruct b; [|reflexivity].
    rewrite (proj1 Hb eq_refl) in E. discriminate.
Qed.

(** ** One device *)

Lemma last_ascii_append (s t : string) :
  t <> EmptyString -> last_ascii (String.append s t) = last_ascii t.
Proof.
  intros Ht. induction s as [|c s IH]; [reflexivity|].
  change (last_ascii (String c (String.append s t)) = last_ascii t).
  assert (String.append s t <> EmptyString) as Hne
    by (destruct s; cbn; [assumption | discriminate]).
  destruct (String.append s t) as [|a s0]; [contradiction|].
  exact IH.
Qed.

Lemma online_status_key_not_last_time_sync d d' :
  online_status_key d <> last_time_sync_key d'.
Proof.
  intros E. apply (f_equal last_ascii) in E. revert E.
  unfold online_status_key, last_time_sync_key.
  rewrite !last_ascii_append by discriminate. discriminate.
Qed.

Lemma online_status_key_not_last_run d :
  online_status_key d <> last_time_sync_run_key.
Proof.
  intros E. apply (f_equal last_ascii) in E. revert E.
  unfold online_status_key. rewrite last_ascii_append by discriminate.
  discriminate.
Qed.

Lemma last_time_sync_key_not_last_run d :
  last_time_sync_key d <> last_time_sync_run_key.
Proof.
  intros E. apply (f_equal last_ascii) in E. revert E.
  unfold last_time_sync_key. rewrite last_ascii_append by discriminate.
  discriminate.
Qed.

(** The reachability check returns, assigns to no key but the status key of
    its device, and neither reads nor writes the clock of a device. *)
Lemma check_device_online_status_frame config device env w :
  wp (check_device_online_status config device) env w (fun r w' tr =>
    exists reachable, r = Ret reachable /\
      reachable = reachable_at env (tick w) (ip device) /\
      (tick w <= tick w')%nat /\
      Forall (probe_event device) tr /\
      (forall k, k <> online_status_key device -> db w' !! k = db w !! k) /\
      Forall (fun kv => kv.1 = online_status_key device) (db_writes tr)).
Proof.
  eapply wp_mono; [apply check_device_online_status_wp|].
  cbv beta zeta. intros r w' tr (-> & Hev & Ht & Hdb & Hw & _).
  eexists. repeat split; auto.
  - intros k Hk. rewrite Hdb. destruct (status_changes _ _); [|reflexivity].
    now rewrite lookup_insert_ne.
  - rewrite Hw. destruct (status_changes _ _); repeat constructor.
Qed.

Ltac wp_check :=
  lazymatch goal with
  | |- wp (check_device_online_status _ _) _ _ _ =>
      eapply wp_mono; [apply check_device_online_status_frame|];
      let H := fresh "Hprobe" in
      let b := fresh "reachable" in
      cbv beta; intros ? ? ? (b & -> & ? & ? & H & ? & ?);
      destruct (probe_event_obs _ _ H) as (? & ? & ? & ?);
      try (destruct b); cbn [negb]
  end.

Ltac wp_auto := repeat first [wp_prim | wp_send | wp_check | wp_decide | wp_case].

Ltac solve_in :=
  repeat (rewrite in_app_iff || cbn [In]); auto 30.

Ltac after_sleep_simpl :=
  repeat first [ rewrite after_sleep_app by assumption
               | rewrite app_nil_r
               | rewrite <- app_assoc
               | progress cbn [after_sleep app] ].

Lemma exceeds_false config d :
  exceeds d (TIME_TOLERANCE_SECONDS config) = false -> d <= tolerance_usec config.
Proof. unfold exceeds, tolerance_usec. intros H. now apply Z.ltb_ge in H. Qed.

Lemma exceeds_true config d :
  exceeds d (TIME_TOLERANCE_SECONDS config) = true -> tolerance_usec config < d.
Proof. unfold exceeds, tolerance_usec. intros H. now apply Z.ltb_lt in H. Qed.

Ltac solve_in_tolerance :=
  unfold no_correction_needed;
  do 2 eexists;
  split; [obs; reflexivity|];
  split; [obs; reflexivity|];
  split; [solve_in|];
  split; [apply exceeds_false; assumption|];
  split; obs; reflexivity.

Ltac solve_verified :=
  unfold correction_verified;
  do 6 eexists;
  split; [obs; reflexivity|];
  split; [apply exceeds_true; assumption|];
  split; [obs; reflexivity|];
  split; [obs; reflexivity|];
  split; [obs; reflexivity|];
  split; [after_sleep_simpl; obs; reflexivity|];
  split; [after_sleep_simpl; obs; reflexivity|];
  apply exceeds_false; match goal with
    | H : negb ?b = true |- ?b = false => now destruct b
    end.

Lemma sync_device_time_wp config device env w :
  wp (sync_device_time config device) env w (fun r w' tr =>
    exists v, r = Ret v /\
      (tick w <= tick w')%nat /\
      (forall k, k <> online_status_key device -> db w' !! k = db w !! k) /\
      Forall (fun kv => kv.1 = online_status_key device) (db_writes tr) /\
      (is_true v = true ->
       no_correction_needed config tr \/ correction_verified config device tr)).
Proof.
  unfold sync_device_time, get_device_time, set_device_time.
  wp_auto.
  all: eexists; split; [reflexivity|].
  all: split; [lia|].
  all: split; [intros k Hk; repeat match goal with H : db ?x = _ |- context [db ?x] => rewrite H end; auto|].
  all: split; [obs; rewrite ?app_nil_r; assumption|].
  all: cbn [is_true]; intros Htrue; try discriminate.
  all: first [left; solve_in_tolerance | right; solve_verified].
Qed.

Lemma quiet_probe device tr : Forall (probe_event device) tr -> quiet tr.
Proof. intros H. destruct (probe_event_obs _ _ H) as (? & ? & ? & ?). now repeat split. Qed.

Lemma after_sleep_app_l tr1 tr2 :
  sleeps tr1 <> [] -> after_sleep (tr1 ++ tr2) = after_sleep tr1 ++ tr2.
Proof.
  induction tr1 as [|e tr1 IH]; [intros []; reflexivity|].
  destruct e; cbn; auto.
Qed.

Lemma no_correction_needed_frame config pre tr suf :
  quiet pre -> quiet suf ->
  no_correction_needed config tr -> no_correction_needed config (pre ++ tr ++ suf).
Proof.
  intros (? & ? & ? & ?) (? & ? & ? & ?) (sys & dev & ? & ? & ? & ? & ? & ?).
  exists sys, dev. repeat split; try assumption; try solve_in; obs; reflexivity.
Qed.

Lemma correction_verified_frame config device pre tr suf :
  quiet pre -> quiet suf ->
  correction_verified config device tr ->
  correction_verified config device (pre ++ tr ++ suf).
Proof.
  intros (? & ? & ? & Hpre) (? & ? & ? & ?)
    (sys & dev & upd & d & s & e & ? & ? & ? & Hs & ? & ? & ? & ?).
  exists sys, dev, upd, d, s, e.
  rewrite (after_sleep_app pre) by exact Hpre.
  rewrite after_sleep_app_l by (rewrite Hs; discriminate).
  repeat split; try assumption; obs; reflexivity.
Qed.

Lemma db_writes_app tr1 tr2 : db_writes (tr1 ++ tr2) = db_writes tr1 ++ db_writes tr2.
Proof. apply omap_app. Qed.

Lemma Forall_key_not_in (k0 k : string) (v : Value) (l : list (string * Value)) :
  Forall (fun kv => kv.1 = k0) l -> k <> k0 -> ~ In (k, v) l.
Proof.
  intros H Hk Hin. rewrite Forall_forall in H.
  apply list_elem_of_In, H in Hin. contradiction.
Qed.

(** Looks a key up through the worlds of a run that left it alone. *)
Ltac db_frame :=
  repeat match goal with
    | H : forall k, k <> _ -> db ?w !! k = _ |- context [db ?w !! ?k] =>
        rewrite (H k)
          by first [ assumption
                   | apply not_eq_sym, online_status_key_not_last_time_sync
                   | apply not_eq_sym, online_status_key_not_last_run ]
    end.

Ltac wp_sync :=
  lazymatch goal with
  | |- wp (sync_device_time _ _) _ _ _ =>
      eapply wp_mono; [apply sync_device_time_wp|];
      cbv beta; intros ? ? ? (? & -> & ? & ? & ? & ?)
  end.

Ltac wp_all :=
  repeat first [wp_prim | wp_send | wp_check | wp_sync | wp_decide | wp_case].

(** The last-sync key of a device is assigned in the iteration of
    [sync_all_devices] for that device exactly when [sync_device_time]
    returned [True], that is, in one of the two ways of success. *)
Lemma sync_all_devices_body_wp config device c env w :
  wp (sync_all_devices_body config device c) env w (fun r w' tr =>
    let key := last_time_sync_key device in
    exists c', r = Ret c' /\
      (tick w <= tick w')%nat /\
      ((exists v, In (key, v) (db_writes tr)) ->
       (no_correction_needed config tr \/ correction_verified config device tr) /\
       success_count c' = S (success_count c)) /\
      ((forall v, ~ In (key, v) (db_writes tr)) ->
       db w' !! key = db w !! key /\ success_count c' = success_count c) /\
      (forall k, k <> key -> k <> online_status_key device ->
                 db w' !! k = db w !! k) /\
      Forall (fun kv => kv.1 = key \/ kv.1 = online_status_key device) (db_writes tr)).
Proof.
  unfold sync_all_devices_body. wp_all.
  all: cbn [success_count online_count]; eexists; split; [reflexivity|].
  all: split; [lia|].
  all: rewrite ?app_nil_r; cbn [app].
  all: repeat match goal with
    | H : Forall (probe_event _) _ |- _ => apply quiet_probe in H
    | H : true = true -> _ |- _ => specialize (H eq_refl)
    end.
  - (* the device is in sync, or was corrected and verified *)
    split; [intros _; split; [|reflexivity]|].
    { match goal with
      | H : _ \/ _ |- _ => destruct H as [H|H]; [left|right]
      end.
      - apply no_correction_needed_frame; try assumption. now repeat split.
      - apply correction_verified_frame; try assumption. now repeat split. }
    split.
    { intros Hn. exfalso. eapply Hn. rewrite !db_writes_app.
      do 2 (apply in_or_app; right). left. reflexivity. }
    split.
    { intros k Hk1 Hk2. rewrite lookup_insert_ne by congruence.
      now db_frame. }
    rewrite !db_writes_app, !Forall_app. repeat split.
    + eapply Forall_impl; [eassumption|]. cbn. auto.
    + eapply Forall_impl; [eassumption|]. cbn. auto.
    + repeat constructor.
  - (* [sync_device_time] did not return [True] *)
    assert (Hno : forall v, ~ In (last_time_sync_key device, v) (db_writes (tr ++ tr0))).
    { intros v. rewrite db_writes_app, in_app_iff.
      intros [Hin|Hin]; eapply Forall_key_not_in in Hin; eauto;
        intros E; symmetry in E; revert E; apply online_status_key_not_last_time_sync. }
    split; [intros [v Hv]; destruct (Hno v Hv)|].
    split.
    { intros _. split; [|reflexivity]. now db_frame. }
    split.
    { intros k Hk1 Hk2. now db_frame. }
    rewrite !db_writes_app, !Forall_app. split.
    + eapply Forall_impl; [eassumption|]. cbn. auto.
    + eapply Forall_impl; [eassumption|]. cbn. auto.
  - (* the device is unreachable *)
    assert (Hno : forall v, ~ In (last_time_sync_key device, v) (db_writes tr)).
    { intros v Hin. eapply Forall_key_not_in in Hin; eauto.
      intros E; symmetry in E; revert E; apply online_status_key_not_last_time_sync. }
    split; [intros [v Hv]; destruct (Hno v Hv)|].
    split.
    { intros _. split; [|reflexivity]. now db_frame. }
    split; [auto|].
    eapply Forall_impl; [eassumption|]. cbn. auto.
Qed.


(** The loop of [sync_all_devices] comes to its end. *)
Lemma sync_all_devices_loop_wp config ds c env w :
  wp (sync_all_devices_loop config ds c) env w (fun r w' tr =>
    exists c', r = Ret c' /\ (tick w <= tick w')%nat).
Proof.
  revert c w. induction ds as [|device ds IH]; intros c w; cbn [sync_all_devices_loop].
  - wp_prim. eauto.
  - wp_prim. eapply wp_mono; [apply sync_all_devices_body_wp|].
    cbv beta zeta. intros r w1 t1 (c1 & -> & Ht & _).
    eapply wp_mono; [apply IH|].
    cbv beta. intros r w2 t2 (c2 & -> & Ht2). exists c2. split; [reflexivity|lia].
Qed.

(** C10.  With [ENABLE_TIME_SYNC] false, [sync_all_devices] logs that the
    synchronisation is disabled and returns: no device is contacted, nothing
    is sent, the status dictionary and file are as before, the key
    [last_time_sync_run] included.  With [ENABLE_TIME_SYNC] true the run ends
    by assigning the local time to [last_time_sync_run] and writing the
    file, whatever happened to the devices. *)
Theorem sync_all_devices_disabled config env w :
  (ENABLE_TIME_SYNC config = false ->
   sync_all_devices config env w = (Ret tt, w, [EvLog DEBUG LogSyncDisabled])) /\
  (ENABLE_TIME_SYNC config = true ->
   exists w' tr t ok,
     sync_all_devices config env w =
       (Ret tt, w',
        tr ++ [EvNow t; EvDbSet last_time_sync_run_key (VTime t); EvDbSave ok]) /\
     db w' !! last_time_sync_run_key = Some (VTime t)).
Proof.
  split; intros H.
  { unfold sync_all_devices. rewrite H. reflexivity. }
  assert (W : wp (sync_all_devices config) env w (fun r w' tr =>
    exists tr0 t ok, r = Ret tt /\
      tr = tr0 ++ [EvNow t; EvDbSet last_time_sync_run_key (VTime t); EvDbSave ok] /\
      db w' !! last_time_sync_run_key = Some (VTime t))).
  { unfold sync_all_devices. rewrite H. cbn [negb].
    wp_prim. wp_prim. wp_prim.
    eapply wp_mono; [apply sync_all_devices_loop_wp|].
    cbv beta. intros r w1 t1 (c1 & -> & _).
    wp_all.
    - exists (EvLog DEBUG LogSyncStarting :: t1 ++
              [EvLog INFO (LogSyncCompleted (success_count c1) (online_count c1)
                             (length (devices config)))]).
      eexists _, _. split; [reflexivity|]. split; [|apply lookup_insert_eq].
      cbn [app]. now rewrite <- app_assoc.
    - exists (EvLog DEBUG LogSyncStarting :: t1).
      eexists _, _. split; [reflexivity|]. split; [|apply lookup_insert_eq].
      reflexivity. }
  unfold wp in W. destruct (sync_all_devices config env w) as [[r w'] tr].
  destruct W as (tr0 & t & ok & -> & -> & Hdb). eauto 6.
Qed.

(** C2, as the code has it.  In the iteration of [sync_all_devices] for a
    device that has no stored status and is found unreachable, "offline" is
    stored, the notifier is called once, with the OFFLINE message (and makes
    its one HTTP request when it is enabled and configured), and the
    iteration ends there: one session was opened, the clock of the device is
    neither read nor written, no last-sync key is assigned and the counters
    are as before. *)
Theorem first_unreachable_check config device c env w :
  db w !! online_status_key device = None ->
  reachable_at env (tick w) (ip device) = false ->
  exists w' tr,
    sync_all_devices_body config device c env w = (Ret c, w', tr) /\
    db w' !! online_status_key device = Some offline /\
    notifications tr = [MsgOffline] /\
    length (posts tr) = (if notifier_ready config then 1 else 0)%nat /\
    length (connections tr) = 1%nat /\
    get_time_results tr = [] /\
    device_writes tr = [] /\
    time_differences tr = [] /\
    (forall v, ~ In (last_time_sync_key device, v) (db_writes tr)).
Proof.
  intros Hprev Hr.
  pose proof (check_device_online_status_wp config device env w) as W.
  unfold wp in W. unfold sync_all_devices_body, try_except, bind.
  destruct (check_device_online_status config device env w) as [[r w'] tr].
  cbv zeta in W.
  destruct W as (-> & Hev & _ & Hdb & Hw & Hn & _ & ok & _ & _ & Hc & Hp).
  rewrite Hr, Hprev, ?status_changes_none, ?status_notifies_none in *.
  cbn [negb status_of transition_message] in *. cbn [ret].
  destruct (probe_event_obs _ _ Hev) as (? & ? & ? & ?).
  exists w', (tr ++ []). rewrite app_nil_r.
  split; [reflexivity|]. repeat split; auto.
  - rewrite Hdb. apply lookup_insert_eq.
  - rewrite Hp, Hn. reflexivity.
  - now rewrite Hc.
  - intros v. rewrite Hw. intros [E|[]].
    apply (online_status_key_not_last_time_sync device device). congruence.
Qed.

(** A request to set the clock of a device is among the writes. *)
Lemma set_time_in_device_writes a t r tr :
  In (EvSetTime a t r) tr -> In (EvSetTime a t r) (device_writes tr).
Proof.
  intros H. apply list_elem_of_In. apply list_elem_of_In in H.
  unfold device_writes. apply list_elem_of_omap. eauto.
Qed.

Ltac obs_in H :=
  unfold notifications, posts, connections, device_writes, get_time_results,
    db_writes, time_differences, sleeps, saves in *;
  rewrite ?omap_app in H;
  cbn [omap list_omap app] in H;
  repeat match type of H with
    | context [omap ?f ?tr] =>
        match goal with E : omap f tr = _ |- _ => rewrite E in H end
    end;
  cbn [app] in H.

Ltac after_sleep_simpl_in H :=
  repeat first [ rewrite after_sleep_app in H by assumption
               | rewrite app_nil_r in H
               | rewrite <- app_assoc in H
               | progress cbn [after_sleep app] in H ].

(** C7.  When [sync_device_time] has set the clock of the device and the
    clock read after the delay differs from the time set by more than the
    tolerance, it returns [False]; the only requests that change the device
    in the whole call are the one disable, set-time and enable of that
    correction, and nothing is written to the device after the delay: no
    rollback, no second correction. *)
Theorem verification_failure config device env w r w' tr
    system_time set_result updated_device_time :
  sync_device_time config device env w = (r, w', tr) ->
  In (EvSetTime (ip device) system_time set_result) tr ->
  get_time_results (after_sleep tr) = [Ret (Some updated_device_time)] ->
  tolerance_usec config < abs_diff system_time updated_device_time ->
  r = Ret (Some false) /\
  (exists d s e,
     device_writes tr =
       [EvDisableDevice (ip device) (Ret d);
        EvSetTime (ip device) system_time (Ret s);
        EvEnableDevice (ip device) (Ret e)]) /\
  device_writes (after_sleep tr) = [] /\
  sleeps tr = [2].
Proof.
  intros E. revert system_time set_result updated_device_time.
  refine (wp_run _ _ _ (fun r w' tr => forall system_time set_result updated_device_time,
    In (EvSetTime (ip device) system_time set_result) tr ->
    get_time_results (after_sleep tr) = [Ret (Some updated_device_time)] ->
    tolerance_usec config < abs_diff system_time updated_device_time -> _) _ _ _ _ E).
  clear E r w' tr.
  unfold sync_device_time, get_device_time, set_device_time.
  wp_auto.
  all: intros sys rset upd Hin Hread Hexc.
  all: after_sleep_simpl_in Hread.
  all: try (cbn in Hread; discriminate).
  all: apply set_time_in_device_writes in Hin.
  all: obs_in Hin; obs_in Hread; obs; cbn [In] in Hin.
  all: destruct Hin as [Hin|[Hin|[Hin|[]]]]; try discriminate Hin; simplify_eq.
  all: try match goal with
    | H : negb (exceeds ?d _) = true |- _ =>
        exfalso; apply Bool.negb_true_iff, exceeds_false in H; lia
    end.
  all: split; [reflexivity|]; split; [eauto|];
    split; [after_sleep_simpl; obs; reflexivity | reflexivity].
Qed.

(** ** The check mode *)

(** The iteration of the check mode for one device returns, sends no request
    that changes a device, and assigns to no key but the status key of the
    device. *)
Lemma check_mode_body_wp config device env w :
  wp (check_mode_body config device) env w (fun r w' tr =>
    r = Ret tt /\
    device_writes tr = [] /\
    (forall k, k <> online_status_key device -> db w' !! k = db w !! k) /\
    Forall (fun kv => kv.1 = online_status_key device) (db_writes tr)).
Proof.
  unfold check_mode_body, get_device_time.
  wp_auto.
  all: split; [reflexivity|].
  all: split; [obs; reflexivity|].
  all: split; [assumption|].
  all: rewrite ?db_writes_app, ?Forall_app; unfold db_writes at 1;
    cbn [omap list_omap]; repeat split; try assumption; constructor.
Qed.

Lemma check_mode_loop_wp config ds env w :
  wp (check_mode_loop config ds) env w (fun r w' tr =>
    r = Ret tt /\
    device_writes tr = [] /\
    (forall k, (forall d, In d ds -> k <> online_status_key d) ->
               db w' !! k = db w !! k) /\
    Forall (fun kv => exists d, In d ds /\ kv.1 = online_status_key d) (db_writes tr)).
Proof.
  revert w. induction ds as [|device ds IH]; intros w; cbn [check_mode_loop].
  - wp_prim. repeat split; auto.
  - wp_prim. eapply wp_mono; [apply check_mode_body_wp|].
    cbv beta. intros r w1 t1 (-> & Hw1 & Hf1 & Hk1).
    eapply wp_mono; [apply IH|].
    cbv beta. intros r w2 t2 (-> & Hw2 & Hf2 & Hk2).
    split; [reflexivity|]. split; [obs; reflexivity|]. split.
    + intros k Hk. rewrite Hf2, Hf1; auto.
      * apply Hk. now left.
      * intros d Hd. apply Hk. now right.
    + rewrite db_writes_app, Forall_app. split.
      * eapply Forall_impl; [exact Hk1|]. cbn. intros kv ->.
        exists device. split; [now left | reflexivity].
      * eapply Forall_impl; [exact Hk2|]. cbn. intros kv (d & Hd & ->).
        exists d. split; [now right | reflexivity].
Qed.

(** C4, as the code has it.  The check mode sends no disable, set-time or
    enable request to any device, and assigns to no key of the status
    dictionary but the status keys of the configured devices: the last-sync
    key of every device and the key [last_time_sync_run] keep their values.
    The status keys themselves are assigned, and the file written, by the
    reachability check the mode runs for each device. *)
Theorem check_mode_writes_only_status config env w :
  exists w' tr,
    check_mode config env w = (Ret tt, w', tr) /\
    device_writes tr = [] /\
    (forall k v, In (k, v) (db_writes tr) ->
       exists d, In d (devices config) /\ k = online_status_key d) /\
    (forall k, (forall d, In d (devices config) -> k <> online_status_key d) ->
       db w' !! k = db w !! k) /\
    (forall d, db w' !! last_time_sync_key d = db w !! last_time_sync_key d) /\
    db w' !! last_time_sync_run_key = db w !! last_time_sync_run_key.
Proof.
  assert (W : wp (check_mode config) env w (fun r w' tr =>
    r = Ret tt /\
    device_writes tr = [] /\
    (forall k, (forall d, In d (devices config) -> k <> online_status_key d) ->
               db w' !! k = db w !! k) /\
    Forall (fun kv => exists d, In d (devices config) /\ kv.1 = online_status_key d)
      (db_writes tr))).
  { unfold check_mode. wp_prim. wp_prim.
    eapply wp_mono; [apply check_mode_loop_wp|].
    cbv beta. intros r w' tr (-> & Hw & Hf & Hk).
    split; [reflexivity|]. split; [obs; reflexivity|]. split; [exact Hf|].
    exact Hk. }
  unfold wp in W. destruct (check_mode config env w) as [[r w'] tr].
  destruct W as (-> & Hw & Hf & Hk).
  exists w', tr. split; [reflexivity|]. split; [exact Hw|]. split; [|split; [exact Hf|split]].
  - intros k v Hin. rewrite Forall_forall in Hk.
    apply list_elem_of_In, Hk in Hin. exact Hin.
  - intros d. apply Hf. intros d' _. apply not_eq_sym, online_status_key_not_last_time_sync.
  - apply Hf. intros d' _. apply not_eq_sym, online_status_key_not_last_run.
Qed.

(** ** The statements at sample runs *)

Lemma run_eta {A} (x : Result A * World * list Event) : x = (x.1.1, x.1.2, x.2).
Proof. now destruct x as [[? ?] ?]. Qed.

(** The scenario of a device 400 seconds off that takes the correction:
    the clock is set, the notifier is called with the difference, the
    last-sync key is assigned and the device counts as synchronised. *)
Example scenario_400_seconds :
  let '(r, w', tr) := sync_all_devices_body config_1 device_1 counters_0 env_corrected world_0 in
  r = Ret {| success_count := 1; online_count := 1 |} /\
  device_writes tr =
    [EvDisableDevice "192.168.1.201" (Ret true);
     EvSetTime "192.168.1.201" noon (Ret true);
     EvEnableDevice "192.168.1.201" (Ret true)] /\
  notifications tr = [MsgTimeSynchronized (400 * usec_per_sec)] /\
  db w' !! "1_last_time_sync" = Some (VTime noon).
Proof. vm_compute. repeat split. Qed.

(** C1 at a device stored as online and found unreachable: one OFFLINE
    notification. *)
Lemma check_device_online_status_transition_witness :
  db world_online !! online_status_key device_1 = Some (status_of true) /\
  notifications (check_device_online_status config_1 device_1 env_down world_online).2
    = [MsgOffline].
Proof.
  split; [reflexivity|].
  destruct (check_device_online_status_transition config_1 device_1 env_down
              world_online true eq_refl)
    as (reachable & w' & tr & E & Hr & Hcase & _).
  rewrite E. subst reachable. exact (proj1 Hcase).
Defined.

(** C2 as stated fails: the first check of a device without stored status
    that is unreachable calls the notifier, which posts to the webhook. *)
Lemma unreachable_first_check_sends_notification :
  db world_0 !! online_status_key device_1 = None /\
  reachable_at env_down (tick world_0) (ip device_1) = false /\
  let tr := (sync_all_devices_body config_1 device_1 counters_0 env_down world_0).2 in
  notifications tr <> [] /\
  posts tr = [("https://chat.example/v1/spaces/A/messages", 10, Ret 200)].
Proof. vm_compute. repeat split. discriminate. Qed.

(** C2 as the code has it, at the same run. *)
Lemma first_unreachable_check_witness :
  db world_0 !! online_status_key device_1 = None /\
  reachable_at env_down (tick world_0) (ip device_1) = false /\
  exists w' tr,
    sync_all_devices_body config_1 device_1 counters_0 env_down world_0
      = (Ret counters_0, w', tr) /\
    db w' !! online_status_key device_1 = Some offline /\
    notifications tr = [MsgOffline].
Proof.
  split; [reflexivity|]. split; [reflexivity|].
  destruct (first_unreachable_check config_1 device_1 counters_0 env_down world_0
              eq_refl eq_refl)
    as (w' & tr & E & Hdb & Hn & _).
  exists w', tr. repeat split; assumption.
Defined.

(** C3 at a device stored as online and found unreachable. *)
Lemma check_device_online_status_goes_offline_witness :
  reachable_at env_down (tick world_online) (ip device_1) = false /\
  db world_online !! online_status_key device_1 <> Some offline /\
  exists w' tr,
    check_device_online_status config_1 device_1 env_down world_online
      = (Ret false, w', tr) /\
    db w' = <[online_status_key device_1 := offline]> (db world_online) /\
    notifications tr = [MsgOffline].
Proof.
  assert (H : db world_online !! online_status_key device_1 <> Some offline)
    by (vm_compute; discriminate).
  split; [reflexivity|]. split; [exact H|].
  destruct (check_device_online_status_goes_offline config_1 device_1 env_down
              world_online eq_refl H)
    as (w' & tr & ok & E & Hdb & _ & _ & _ & Hn & _).
  exists w', tr. repeat split; assumption.
Defined.

(** C4 as stated fails: the check mode, run on a reachable device without
    stored status, assigns the status key and writes the file. *)
Lemma check_mode_writes_status :
  let run := check_mode config_1 env_in_sync world_0 in
  db run.1.2 <> db world_0 /\
  disk run.1.2 <> disk world_0 /\
  db_writes run.2 = [("1_online_status", online)] /\
  saves run.2 = [true].
Proof.
  cbv zeta. split; [|split; [|split; vm_compute; reflexivity]].
  - intros E. apply (f_equal (fun m => m !! "1_online_status")) in E.
    vm_compute in E. discriminate.
  - intros E. apply (f_equal (fun m => m !! "1_online_status")) in E.
    vm_compute in E. discriminate.
Qed.


(** C7 at the device that stays 400 seconds behind. *)
Lemma verification_failure_witness :
  let run := sync_device_time config_1 device_1 env_stuck world_0 in
  In (EvSetTime (ip device_1) noon (Ret true)) run.2 /\
  get_time_results (after_sleep run.2) = [Ret (Some (noon - 400 * usec_per_sec))] /\
  tolerance_usec config_1 < abs_diff noon (noon - 400 * usec_per_sec) /\
  run.1.1 = Ret (Some false) /\
  device_writes (after_sleep run.2) = [] /\
  sleeps run.2 = [2].
Proof.
  cbv zeta.
  assert (H1 : In (EvSetTime (ip device_1) noon (Ret true))
                 (sync_device_time config_1 device_1 env_stuck world_0).2)
    by (vm_compute; auto 20).
  assert (H2 : get_time_results
                 (after_sleep (sync_device_time config_1 device_1 env_stuck world_0).2)
               = [Ret (Some (noon - 400 * usec_per_sec))])
    by (vm_compute; reflexivity).
  assert (H3 : tolerance_usec config_1 < abs_diff noon (noon - 400 * usec_per_sec))
    by (vm_compute; reflexivity).
  destruct (verification_failure config_1 device_1 env_stuck world_0 _ _ _ _ _ _
              (run_eta _) H1 H2 H3)
    as (Hr & _ & Hw & Hs).
  exact (conj H1 (conj H2 (conj H3 (conj Hr (conj Hw Hs))))).
Defined.

(** C9 at a reachable device without stored status. *)
Lemma check_device_online_status_first_online_witness :
  reachable_at env_in_sync (tick world_0) (ip device_1) = true /\
  db world_0 !! online_status_key device_1 = None /\
  exists w' tr,
    check_device_online_status config_1 device_1 env_in_sync world_0
      = (Ret true, w', tr) /\
    notifications tr = [] /\ posts tr = [] /\
    db w' !! online_status_key device_1 = Some online.
Proof.
  split; [reflexivity|]. split; [reflexivity|].
  destruct (check_device_online_status_first_online config_1 device_1 env_in_sync
              world_0 eq_refl eq_refl)
    as (w' & tr & ok & E & Hn & Hp & Hdb & _).
  exists w', tr. repeat split; try assumption.
  rewrite Hdb. apply lookup_insert_eq.
Defined.

(** * More of the script *)

(** ** Rules for observations *)

Lemma wp_conj {A} (m : M A) env w (Q1 Q2 : Result A -> World -> list Event -> Prop) :
  wp m env w Q1 -> wp m env w Q2 ->
  wp m env w (fun r w' tr => Q1 r w' tr /\ Q2 r w' tr).
Proof. unfold wp. destruct (m env w) as [[r w'] tr]. auto. Qed.

Lemma wp_exists {A} (m : M A) env w (Q : Result A -> World -> list Event -> Prop) :
  wp m env w Q -> exists r w' tr, m env w = (r, w', tr) /\ Q r w' tr.
Proof. unfold wp. destruct (m env w) as [[r w'] tr]. eauto. Qed.

Lemma Forall_In {X} (P : X -> Prop) (l : list X) (x : X) :
  Forall P l -> In x l -> P x.
Proof. rewrite Forall_forall. intros H Hin. apply H, list_elem_of_In, Hin. Qed.

Lemma sessions_app s tr1 tr2 s' :
  sessions s tr1 = Some s' -> sessions s (tr1 ++ tr2) = sessions s' tr2.
Proof.
  revert s. induction tr1 as [|e tr1 IH]; intros s; cbn [app sessions].
  - now intros [= ->].
  - destruct e, s; try discriminate; try apply IH;
      destruct (bool_decide _); try discriminate; apply IH.
Qed.

Lemma sessions_chat tr s : Forall chat_event tr -> sessions s tr = Some s.
Proof.
  induction 1 as [|e tr He _ IH]; [reflexivity|].
  destruct e; cbn in He; try contradiction; exact IH.
Qed.

(** The observations of the notifier that the rules above do not give. *)
Lemma chat_event_more tr :
  Forall chat_event tr ->
  disconnections tr = [] /\ printed tr = [] /\ timestamp_writes tr = [] /\
  summaries tr = [] /\ headings tr = [].
Proof.
  intros H. repeat split; apply (omap_none_Forall _ _ _ H);
    intros [] He; try reflexivity; try (destruct He; fail);
    cbn in He; destruct m; (reflexivity || destruct He).
Qed.

(** ** Reading and setting the clock of a device *)

(** X1.  [get_device_time] returns what the device answers only when the
    session opens, the clock is read and the session closes; when any of the
    three fails, a failing disconnect after a successful reading included,
    it raises.  It assigns nothing in the status dictionary and sends no
    request that changes the device. *)
Theorem get_device_time_result addr env w :
  exists r w' tr,
    get_device_time addr env w = (r, w', tr) /\
    r = (if zk_connect env (tick w) addr
         then match zk_get_time env (S (tick w)) addr with
              | Ret t => if zk_disconnect env (S (S (tick w))) addr
                         then Ret t else Raise
              | Raise => Raise
              end
         else Raise) /\
    db w' = db w /\ disk w' = disk w /\
    db_writes tr = [] /\ device_writes tr = [] /\
    disconnections tr =
      (if zk_connect env (tick w) addr
       then [(addr, zk_disconnect env (S (S (tick w))) addr)] else []).
Proof.
  apply wp_exists. unfold get_device_time. wp_go.
  all: repeat match goal with H : ?b = _ |- context [?b] => rewrite H end.
  all: repeat split; reflexivity.
Qed.

(** X2.  [set_device_time] returns [True] or raises, never [False].  It
    returns [True] exactly when the three commands returned and the session
    closed, whatever the three commands answered: the answers are logged, not
    tested. *)
Theorem set_device_time_result addr new_time env w :
  exists r w' tr,
    set_device_time addr new_time env w = (r, w', tr) /\
    (r = Ret true \/ r = Raise) /\
    (r = Ret true <->
     (exists d s e,
        device_writes tr =
          [EvDisableDevice addr (Ret d); EvSetTime addr new_time (Ret s);
           EvEnableDevice addr (Ret e)]) /\
     disconnections tr = [(addr, true)]) /\
    db w' = db w /\ disk w' = disk w.
Proof.
  apply wp_exists. unfold set_device_time. wp_go.
  all: split; [auto|].
  all: split; [|split; reflexivity].
  all: unfold device_writes, disconnections; cbn.
  all: split;
    [ intros H; first [discriminate H | split; [eauto | reflexivity]]
    | intros [(d & s & e & Hw) Hd];
      first [reflexivity | discriminate Hw | discriminate Hd] ].
Qed.

(** A device that answers [False] to all three commands: [set_device_time]
    still returns [True]. *)
Example set_device_time_refused :
  (set_device_time (ip device_1) noon env_refusing world_0).1.1 = Ret true.
Proof. vm_compute. reflexivity. Qed.

(** X3.  The commands of [set_device_time] go out in the order disable,
    set-time, enable, the time sent being [new_time], each command only when
    the one before has returned; and the session, once open, is closed on
    every path. *)
Theorem set_device_time_commands addr new_time env w :
  exists r w' tr,
    set_device_time addr new_time env w = (r, w', tr) /\
    CorrectionShape addr new_time (device_writes tr) /\
    sessions None tr = Some None /\
    length (disconnections tr) = (if zk_connect env (tick w) addr then 1 else 0)%nat.
Proof.
  apply wp_exists. unfold set_device_time. wp_go.
  all: repeat match goal with H : ?b = _ |- context [?b] => rewrite H end.
  all: split; [cbn; constructor|]; split; [|reflexivity].
  all: cbn; rewrite ?bool_decide_eq_true_2 by reflexivity; reflexivity.
Qed.

(** ** The reachability check, again *)

(** X4.  What is stored after a check.  An unreachable device is stored as
    "offline" whatever was stored before.  A reachable device is stored as
    "online" when nothing or "offline" was stored; any other stored value,
    "online" or not, is left as it is. *)
Theorem check_device_online_status_stored config device env w :
  exists reachable w' tr,
    check_device_online_status config device env w = (Ret reachable, w', tr) /\
    reachable = reachable_at env (tick w) (ip device) /\
    db w' !! online_status_key device =
      (if reachable
       then match db w !! online_status_key device with
            | None => Some online
            | Some v => if bool_decide (v = offline) then Some online else Some v
            end
       else Some offline) /\
    (forall k, k <> online_status_key device -> db w' !! k = db w !! k).
Proof.
  pose proof (check_device_online_status_wp config device env w) as W.
  unfold wp in W.
  destruct (check_device_online_status config device env w) as [[r w'] tr].
  cbv zeta in W. destruct W as (-> & _ & _ & Hdb & _).
  eexists _, w', tr. split; [reflexivity|]. split; [reflexivity|].
  unfold status_changes in Hdb.
  split.
  - rewrite Hdb. destruct (reachable_at env (tick w) (ip device)).
    + destruct (db w !! online_status_key device) as [v|] eqn:E.
      * rewrite (bool_decide_eq_false_2 (Some v = None)) by discriminate.
        rewrite orb_false_r.
        destruct (decide (v = offline)) as [->|Hv].
        -- rewrite !bool_decide_eq_true_2 by reflexivity. apply lookup_insert_eq.
        -- rewrite (bool_decide_eq_false_2 (Some v = Some offline)) by congruence.
           rewrite (bool_decide_eq_false_2 (v = offline)) by assumption.
           exact E.
      * rewrite (bool_decide_eq_true_2 (None = None)) by reflexivity.
        rewrite orb_true_r. apply lookup_insert_eq.
    + destruct (decide (db w !! online_status_key device = Some offline)) as [E|E].
      * rewrite bool_decide_eq_true_2 by assumption. exact E.
      * rewrite bool_decide_eq_false_2 by assumption. apply lookup_insert_eq.
  - intros k Hk. rewrite Hdb.
    destruct (if reachable_at env (tick w) (ip device) then _ else _); [|reflexivity].
    now rewrite lookup_insert_ne.
Qed.

(** X5.  A check that observes what the check before it observed is silent:
    whatever was stored before the first of the two, the second calls no
    notifier, makes no HTTP request, assigns nothing and does not write the
    status file. *)
Theorem check_device_online_status_repeated config device env w b w1 tr1 w2 tr2 :
  check_device_online_status config device env w = (Ret b, w1, tr1) ->
  check_device_online_status config device env w1 = (Ret b, w2, tr2) ->
  notifications tr2 = [] /\ posts tr2 = [] /\
  db_writes tr2 = [] /\ saves tr2 = [] /\
  db w2 = db w1 /\ disk w2 = disk w1.
Proof.
  intros E1 E2.
  pose proof (wp_run _ _ _ _ _ _ _ (check_device_online_status_wp config device env w) E1)
    as (Hb1 & _ & _ & Hdb1 & _).
  pose proof (wp_run _ _ _ _ _ _ _ (check_device_online_status_wp config device env w1) E2)
    as (Hb2 & _ & _ & Hdb2 & Hw2 & Hn2 & Hp2 & ok & Hs2 & Hd2 & _).
  cbv zeta in *. injection Hb1 as Hb1. injection Hb2 as Hb2.
  rewrite <- Hb1 in Hdb1. rewrite <- Hb2 in Hdb2, Hw2, Hn2, Hs2, Hd2.
  assert (Hc : status_changes (db w1 !! online_status_key device) b = false
               /\ status_notifies (db w1 !! online_status_key device) b = false).
  { rewrite Hdb1. unfold status_changes, status_notifies. destruct b.
    - destruct (decide (db w !! online_status_key device = Some offline)) as [E|E];
        [rewrite (bool_decide_eq_true_2 _ E); cbn [orb]|
         rewrite (bool_decide_eq_false_2 _ E); cbn [orb]].
      + rewrite lookup_insert_eq.
        rewrite !bool_decide_eq_false_2 by discriminate. auto.
      + destruct (decide (db w !! online_status_key device = None)) as [E'|E'];
          [rewrite (bool_decide_eq_true_2 _ E')|rewrite (bool_decide_eq_false_2 _ E')].
        * rewrite lookup_insert_eq.
          rewrite !bool_decide_eq_false_2 by discriminate. auto.
        * rewrite !bool_decide_eq_false_2 by assumption. auto.
    - destruct (decide (db w !! online_status_key device = Some offline)) as [E|E];
        [rewrite (bool_decide_eq_true_2 _ E)|rewrite (bool_decide_eq_false_2 _ E)];
        cbn [negb].
      + rewrite (bool_decide_eq_true_2 _ E). auto.
      + rewrite lookup_insert_eq.
        rewrite bool_decide_eq_true_2 by reflexivity. auto. }
  destruct Hc as [Hc Hn]. rewrite Hc in *. rewrite Hn in *. cbn [andb] in Hd2.
  rewrite Hn2 in Hp2. repeat split; auto.
  destruct (posts tr2); [reflexivity | cbn in Hp2; lia].
Qed.

Lemma check_device_online_status_repeated_witness :
  let run1 := check_device_online_status config_1 device_1 env_down world_online in
  let run2 := check_device_online_status config_1 device_1 env_down run1.1.2 in
  run1.1.1 = Ret false /\ run2.1.1 = Ret false /\
  notifications run1.2 = [MsgOffline] /\
  notifications run2.2 = [] /\ db_writes run2.2 = [].
Proof.
  cbv zeta.
  assert (E1 : check_device_online_status config_1 device_1 env_down world_online
               = (Ret false,
                  (check_device_online_status config_1 device_1 env_down world_online).1.2,
                  (check_device_online_status config_1 device_1 env_down world_online).2))
    by (vm_compute; reflexivity).
  set (w1 := (check_device_online_status config_1 device_1 env_down world_online).1.2) in *.
  assert (E2 : check_device_online_status config_1 device_1 env_down w1
               = (Ret false,
                  (check_device_online_status config_1 device_1 env_down w1).1.2,
                  (check_device_online_status config_1 device_1 env_down w1).2))
    by (vm_compute; reflexivity).
  destruct (check_device_online_status_repeated config_1 device_1 env_down
              world_online false _ _ _ _ E1 E2) as (Hn & _ & Hw & _).
  split; [vm_compute; reflexivity|]. split; [vm_compute; reflexivity|].
  split; [vm_compute; reflexivity|]. split; [exact Hn | exact Hw].
Defined.

(** What is not among the events of the reachability check, continued. *)
Lemma probe_event_more device tr :
  Forall (probe_event device) tr ->
  printed tr = [] /\ timestamp_writes tr = [] /\
  summaries tr = [] /\ headings tr = [].
Proof.
  intros H. repeat split; apply (omap_none_Forall _ _ _ H);
    intros [] He; try reflexivity; try (destruct He; fail).
  - destruct v; [reflexivity|]. destruct He as [_ [He|He]]; discriminate He.
  - cbn in He. destruct m; (reflexivity || destruct He).
Qed.

(** The reachability check opens one session and closes it if it opened. *)
Lemma check_device_online_status_sessions config device env w :
  wp (check_device_online_status config device) env w (fun _ _ tr =>
    sessions None tr = Some None).
Proof.
  unfold check_device_online_status.
  repeat first [wp_prim | wp_send | wp_decide | wp_case].
  all: repeat match goal with
    | H : Forall chat_event ?tr |- _ =>
        lazymatch goal with
        | _ : sessions None tr = Some None |- _ => fail
        | _ => pose proof (sessions_chat tr None H)
        end
    end.
  all: repeat first
    [ match goal with
      | Hs : sessions ?s ?tr = Some ?s' |- context [sessions ?s (?tr ++ ?rest)] =>
          rewrite (sessions_app s tr rest s' Hs)
      end
    | rewrite app_nil_r
    | rewrite <- app_assoc
    | progress cbn [sessions app]
    | rewrite bool_decide_eq_true_2 by reflexivity ].
  all: reflexivity.
Qed.

(** What the later statements use of a run of the reachability check. *)
Lemma check_device_online_status_summary config device env w :
  wp (check_device_online_status config device) env w (fun r w' tr =>
    exists reachable, r = Ret reachable /\
      reachable = reachable_at env (tick w) (ip device) /\
      (tick w <= tick w')%nat /\
      Forall (probe_event device) tr /\
      (forall k, k <> online_status_key device -> db w' !! k = db w !! k) /\
      (forall k, is_Some (db w !! k) -> is_Some (db w' !! k)) /\
      Forall (fun kv => kv.1 = online_status_key device) (db_writes tr) /\
      sessions None tr = Some None /\
      connections tr = [(ip device, zk_connect env (tick w) (ip device))] /\
      (length (notifications tr) <= 1)%nat /\
      (forall d, ~ In (MsgTimeSynchronized d) (notifications tr)) /\
      (reachable = true -> db w' !! online_status_key device <> Some offline) /\
      (reachable = true -> db w !! online_status_key device <> Some offline ->
       notifications tr = [])).
Proof.
  eapply wp_mono;
    [apply (wp_conj _ _ _ _ _ (check_device_online_status_wp config device env w)
              (check_device_online_status_sessions config device env w))|].
  cbv beta zeta.
  intros r w' tr [(-> & Hev & Ht & Hdb & Hw & Hn & _ & ok & _ & _ & Hc & _) Hs].
  eexists. split; [reflexivity|]. split; [reflexivity|].
  set (b := reachable_at env (tick w) (ip device)) in *.
  set (prev := db w !! online_status_key device) in *.
  repeat match goal with |- _ /\ _ => split end; try assumption.
  - intros k Hk. rewrite Hdb. destruct (status_changes _ _); [|reflexivity].
    now rewrite lookup_insert_ne.
  - intros k Hk. rewrite Hdb. destruct (status_changes _ _); [|assumption].
    destruct (decide (online_status_key device = k)) as [->|Hne].
    + rewrite lookup_insert_eq. eauto.
    + now rewrite lookup_insert_ne.
  - rewrite Hw. destruct (status_changes _ _); repeat constructor.
  - rewrite Hn. destruct (status_notifies _ _); cbn; lia.
  - intros d. rewrite Hn. destruct (status_notifies _ _); [|intros []].
    destruct b; intros [E|[]]; discriminate E.
  - intros Hb. rewrite Hdb, Hb. unfold status_changes.
    destruct (decide (prev = Some offline)) as [E|E].
    + rewrite (bool_decide_eq_true_2 _ E). cbn [orb].
      rewrite lookup_insert_eq. discriminate.
    + rewrite (bool_decide_eq_false_2 _ E). cbn [orb].
      destruct (decide (prev = None)) as [E'|E'].
      * rewrite (bool_decide_eq_true_2 _ E'). rewrite lookup_insert_eq. discriminate.
      * rewrite (bool_decide_eq_false_2 _ E'). exact E.
  - intros Hb Hp. rewrite Hn, Hb. unfold status_notifies.
    now rewrite bool_decide_eq_false_2 by assumption.
Qed.

Ltac wp_send2 :=
  lazymatch goal with
  | |- wp (send_google_chat_message _ _ _ _) _ _ _ =>
      eapply wp_mono; [apply send_google_chat_message_wp|];
      let H := fresh "Hchat" in
      cbv beta; intros ? ? ? (? & -> & ? & ? & ? & H & ? & ?);
      destruct (chat_event_obs _ H) as (? & ? & ? & ? & ? & ? & ?);
      destruct (chat_event_more _ H) as (? & ? & ? & ? & ?);
      pose proof (sessions_chat _ None H)
  end.

Ltac wp_check2 :=
  lazymatch goal with
  | |- wp (check_device_online_status _ _) _ _ _ =>
      eapply wp_mono; [apply check_device_online_status_summary|];
      let H := fresh "Hprobe" in
      let b := fresh "reachable" in
      cbv beta;
      intros ? ? ? (b & -> & ? & ? & H & ? & ? & ? & ? & ? & ? & ? & ? & ?);
      destruct (probe_event_obs _ _ H) as (? & ? & ? & ?);
      destruct (probe_event_more _ _ H) as (? & ? & ? & ?);
      try (destruct b); cbn [negb];
      repeat match goal with
        | H' : true = true -> _ |- _ => specialize (H' eq_refl)
        | H' : false = true -> _ |- _ => clear H'
        end
  end.

Ltac wp_auto2 := repeat first [wp_prim | wp_send2 | wp_check2 | wp_decide | wp_case].

(** The state of the sessions after a list of events put together from
    known events and lists of which the state is known. *)
Ltac sess :=
  repeat first
    [ match goal with
      | Hs : sessions ?s ?tr = Some ?s' |- context [sessions ?s (?tr ++ ?rest)] =>
          rewrite (sessions_app s tr rest s' Hs)
      end
    | rewrite app_nil_r
    | rewrite <- app_assoc
    | progress cbn [sessions app]
    | rewrite bool_decide_eq_true_2 by reflexivity ].

Ltac obs2 :=
  unfold disconnections, printed, logged, timestamp_writes, summaries, headings in *;
  obs.

(** An event that is in none of the parts of a list is not in the list. *)
Ltac not_in Hin :=
  repeat (rewrite in_app_iff in Hin || cbn [In] in Hin);
  repeat match type of Hin with _ \/ _ => destruct Hin as [Hin|Hin] end;
  first [ discriminate Hin
        | contradiction
        | eapply Forall_In in Hin; [|eassumption]; cbn in Hin; contradiction ].

(** ** A device within the tolerance *)

Lemma ends_refl {A} (suf : list A) : exists pre, suf = pre ++ suf.
Proof. now exists []. Qed.

Lemma ends_cons {A} (e : A) l suf :
  (exists pre, l = pre ++ suf) -> exists pre, e :: l = pre ++ suf.
Proof. intros [pre ->]. now exists (e :: pre). Qed.

Lemma ends_app {A} (l1 l suf : list A) :
  (exists pre, l = pre ++ suf) -> exists pre, l1 ++ l = pre ++ suf.
Proof. intros [pre ->]. exists (l1 ++ pre). now rewrite app_assoc. Qed.

(** C6.  When the difference [sync_device_time] measures in the iteration of
    [sync_all_devices] for a device is within the tolerance, the iteration
    sends no disable, set-time or enable request and does not wait, counts
    the device as online and as synchronised, and ends by assigning the
    local time, read anew, to the last-sync key of the device and writing
    the file.  The difference is the one between the local clock and the
    clock of the device read right after it; it is the only one measured,
    and the three sessions of the iteration (two checks and the reading)
    all opened. *)
Theorem in_sync_device_left_alone config device c env w r w' tr d :
  sync_all_devices_body config device c env w = (r, w', tr) ->
  In d (time_differences tr) ->
  d <= tolerance_usec config ->
  r = Ret {| success_count := S (success_count c);
             online_count := S (online_count c) |} /\
  connections tr = [(ip device, true); (ip device, true); (ip device, true)] /\
  device_writes tr = [] /\
  sleeps tr = [] /\
  (exists system_time device_time,
     measurement device system_time device_time tr /\
     d = abs_diff system_time device_time /\
     time_differences tr = [d] /\
     get_time_results tr = [Ret (Some device_time)]) /\
  exists t ok,
    (exists pre,
       tr = pre ++ [EvNow t; EvDbSet (last_time_sync_key device) (VTime t);
                    EvDbSave ok]) /\
    db w' !! last_time_sync_key device = Some (VTime t).
Proof.
  intros E. revert d.
  refine (wp_run _ _ _ (fun r w' tr => forall d,
    In d (time_differences tr) -> d <= tolerance_usec config -> _) _ _ _ _ E).
  clear E r w' tr.
  unfold sync_all_devices_body, sync_device_time, get_device_time, set_device_time.
  wp_auto2.
  all: intros d Hin Hd.
  all: obs_in Hin; cbn [In] in Hin.
  all: repeat match type of Hin with _ \/ _ => destruct Hin as [Hin|Hin] end;
    try contradiction; subst d.
  all: try (exfalso;
    match goal with
    | H : exceeds _ _ = true |- _ => apply exceeds_true in H; lia
    end).
  rewrite <- ?app_assoc, ?app_nil_r; cbn [app success_count online_count].
  split; [reflexivity|].
  split.
  { repeat match goal with
      | H : true = reachable_at _ _ _ |- _ =>
          symmetry in H; apply andb_true_iff in H; destruct H as [H _]
      end.
    obs. repeat match goal with H : zk_connect _ _ _ = true |- _ => rewrite H end.
    reflexivity. }
  split; [obs; reflexivity|]. split; [obs; reflexivity|].
  split.
  - do 2 eexists. split; [|split; [reflexivity|split; obs; reflexivity]].
    match goal with
    | |- measurement _ _ _ (?p1 ++ ?p2 ++ _) => exists (p1 ++ p2)
    end.
    eexists. split; [|split; obs; reflexivity].
    rewrite <- ?app_assoc; cbn [app]. reflexivity.
  - do 2 eexists. split; [|apply lookup_insert_eq].
    repeat first [apply ends_refl | apply ends_cons | apply ends_app].
Qed.

(** C6 at a device exactly 60 seconds behind when it is measured. *)
Lemma in_sync_device_left_alone_witness :
  let run := sync_all_devices_body config_1 device_1 counters_0 env_boundary world_0 in
  In (60 * usec_per_sec) (time_differences run.2) /\
  60 * usec_per_sec <= tolerance_usec config_1 /\
  run.1.1 = Ret {| success_count := 1; online_count := 1 |} /\
  device_writes run.2 = [] /\
  exists t, db run.1.2 !! last_time_sync_key device_1 = Some (VTime t).
Proof.
  cbv zeta.
  assert (H1 : In (60 * usec_per_sec)
                 (time_differences
                    (sync_all_devices_body config_1 device_1 counters_0
                       env_boundary world_0).2))
    by (vm_compute; auto).
  assert (H2 : 60 * usec_per_sec <= tolerance_usec config_1)
    by (vm_compute; discriminate).
  destruct (in_sync_device_left_alone config_1 device_1 counters_0 env_boundary
              world_0 _ _ _ _ (run_eta _) H1 H2)
    as (Hr & _ & Hw & _ & _ & t & _ & _ & Hdb).
  exact (conj H1 (conj H2 (conj Hr (conj Hw (ex_intro _ t Hdb))))).
Defined.

(** In that run the key is stamped four microseconds after the measurement,
    when the clock of the device is more than the tolerance behind the local
    clock: what counts is the difference measured. *)
Example boundary_run :
  let '(r, w', tr) :=
    sync_all_devices_body config_1 device_1 counters_0 env_boundary world_0 in
  time_differences tr = [60 * usec_per_sec] /\
  get_time_results tr = [Ret (Some (noon + 5 - 60 * usec_per_sec))] /\
  db w' !! "1_last_time_sync" = Some (VTime (noon + 9)) /\
  tolerance_usec config_1 < abs_diff (noon + 9) (noon + 5 - 60 * usec_per_sec).
Proof. vm_compute. repeat split. Qed.

(** ** One device, again *)

(** X6.  [sync_device_time] never raises: whatever the device, the webhook
    and the file do, it returns [True], [False] or [None].  When the check
    finds the device unreachable it returns [False] at once: the one session
    of the check is the only one, the clock is neither read nor set, and
    there is no delay. *)
Theorem sync_device_time_returns config device env w :
  exists v w' tr,
    sync_device_time config device env w = (Ret v, w', tr) /\
    (reachable_at env (tick w) (ip device) = false ->
     v = Some false /\
     length (connections tr) = 1%nat /\
     get_time_results tr = [] /\ device_writes tr = [] /\ sleeps tr = []).
Proof.
  assert (W : wp (sync_device_time config device) env w (fun r w' tr =>
    exists v, r = Ret v /\
      (reachable_at env (tick w) (ip device) = false ->
       v = Some false /\
       length (connections tr) = 1%nat /\
       get_time_results tr = [] /\ device_writes tr = [] /\ sleeps tr = []))).
  { unfold sync_device_time, get_device_time, set_device_time. wp_auto2.
    all: eexists; split; [reflexivity|]; intros Hr.
    all: try (exfalso; congruence).
    rewrite app_nil_r.
    repeat split; try assumption.
    match goal with H : connections _ = _ |- _ => now rewrite H end. }
  destruct (wp_exists _ _ _ _ W) as (r & w' & tr & E & v & -> & H). eauto.
Qed.

(** X7.  [set_device_time] cannot return [False], so the branch of
    [sync_device_time] that logs "Failed to synchronize time" is never
    taken: that entry is in no log of a call. *)
Theorem sync_device_time_branch_not_taken config device env w :
  exists r w' tr,
    sync_device_time config device env w = (r, w', tr) /\
    forall lvl id, ~ In (EvLog lvl (LogFailedToSynchronize id)) tr.
Proof.
  apply wp_exists.
  unfold sync_device_time, get_device_time, set_device_time. wp_auto2.
  all: intros lvl id Hin; not_in Hin.
Qed.

Lemma exceeds_300_true d : exceeds d 300 = true -> 300 * usec_per_sec < d.
Proof. unfold exceeds. intros H. now apply Z.ltb_lt in H. Qed.

Lemma exceeds_300_false d : exceeds d 300 = false -> d <= 300 * usec_per_sec.
Proof. unfold exceeds. intros H. now apply Z.ltb_ge in H. Qed.

(** X8.  [sync_device_time] returns [None], neither [True] nor [False],
    exactly when it has corrected the device, the reading after the delay
    gives no time, and the session of that reading closes: the function then
    runs off its end, without a log entry. *)
Theorem sync_device_time_returns_none config device env w :
  exists r w' tr,
    sync_device_time config device env w = (r, w', tr) /\
    (r = Ret None <->
     get_time_results (after_sleep tr) = [Ret None] /\
     disconnections (after_sleep tr) = [(ip device, true)]).
Proof.
  apply wp_exists.
  unfold sync_device_time, get_device_time, set_device_time. wp_auto2.
  all: after_sleep_simpl; obs2.
  all: split;
    [ let H := fresh "Hx" in intros H; first [discriminate H | split; reflexivity]
    | let H1 := fresh "Hx" in let H2 := fresh "Hy" in
      intros [H1 H2]; first [discriminate H1 | discriminate H2 | reflexivity] ].
Qed.

(** X9.  [sync_device_time] sets the clock of a device only when the
    difference it measured exceeds the tolerance, only on the device it was
    called for, and to the local time it took before it read the clock of
    the device: in the events of the call that local time is read, then the
    session of the first reading opens and the clock of the device is read,
    and the request to set the clock comes after.  It corrects at most once
    in a call. *)
Theorem sync_device_time_sets_measured_time config device env w :
  exists r w' tr,
    sync_device_time config device env w = (r, w', tr) /\
    (exists t, CorrectionShape (ip device) t (device_writes tr)) /\
    forall addr t set_result,
      In (EvSetTime addr t set_result) tr ->
      addr = ip device /\
      exists device_time,
        measurement device t device_time tr /\
        time_differences tr = [abs_diff t device_time] /\
        tolerance_usec config < abs_diff t device_time.
Proof.
  apply wp_exists.
  unfold sync_device_time, get_device_time, set_device_time. wp_auto2.
  all: split; [first [exists 0; obs; constructor | eexists; obs; constructor]|].
  all: intros addr tset rset Hin; apply set_time_in_device_writes in Hin;
    obs_in Hin; cbn [In] in Hin.
  all: repeat match type of Hin with _ \/ _ => destruct Hin as [Hin|Hin] end;
    try discriminate Hin; try contradiction; simplify_eq.
  all: split; [reflexivity|].
  all: eexists; split; [|split; [obs; reflexivity|apply exceeds_true; assumption]].
  all: match goal with
    | |- measurement _ _ _ (?p ++ _) => exists p
    end;
    eexists; (split; [|split; obs; reflexivity]).
  all: rewrite <- ?app_assoc; cbn [app]; reflexivity.
Qed.

(** X10.  [sync_device_time] calls the notifier with the "Time
    synchronized" message exactly when it has corrected the device and the
    difference it measured exceeds 300 seconds; the message carries that
    difference.  The call comes before the delay and the verification:
    nothing is sent after the delay, whatever the verification finds. *)
Theorem sync_device_time_notifies_correction config device env w :
  exists r w' tr,
    sync_device_time config device env w = (r, w', tr) /\
    (forall d, In (MsgTimeSynchronized d) (notifications tr) <->
       sleeps tr = [2] /\ time_differences tr = [d] /\ 300 * usec_per_sec < d) /\
    notifications (after_sleep tr) = [].
Proof.
  apply wp_exists.
  unfold sync_device_time, get_device_time, set_device_time. wp_auto2.
  all: split; [|after_sleep_simpl; obs; reflexivity].
  all: intros d; obs; rewrite ?app_nil_r.
  all: split; [ intros Hin; rewrite ?in_app_iff in Hin; cbn [In] in Hin;
          repeat match type of Hin with _ \/ _ => destruct Hin as [Hin|Hin] end;
          first [ contradiction
                | exfalso;
                  match goal with H : forall d, ~ In _ _ |- _ => exact (H _ Hin) end
                | injection Hin as <-;
                  repeat split; try reflexivity; apply exceeds_300_true; assumption ]
        | intros [Hs [Hd Hlt]];
          first [ discriminate Hs
                | injection Hd as <-;
                  first [ exfalso;
                          match goal with H : exceeds _ 300 = false |- _ =>
                            apply exceeds_300_false in H; lia end
                        | apply in_or_app; right; left; reflexivity ] ] ].
Qed.

(** What the statements on a whole cycle use of a call of
    [sync_device_time]. *)
Lemma sync_device_time_summary config device env w :
  wp (sync_device_time config device) env w (fun r w' tr =>
    exists v, r = Ret v /\
      (tick w <= tick w')%nat /\
      sessions None tr = Some None /\
      (length (notifications tr) <= 2)%nat /\
      (db w !! online_status_key device <> Some offline ->
       (length (notifications tr) <= 1)%nat) /\
      printed tr = [] /\ timestamp_writes tr = [] /\ summaries tr = [] /\
      (forall k, is_Some (db w !! k) -> is_Some (db w' !! k))).
Proof.
  unfold sync_device_time, get_device_time, set_device_time. wp_auto2.
  all: eexists; split; [reflexivity|].
  all: split; [lia|].
  all: split; [sess; reflexivity|].
  all: obs2; rewrite ?length_app; cbn [length].
  all: split; [lia|].
  all: split;
    [ intros Hp;
      repeat match goal with
        | H : _ <> Some offline -> _ |- _ => specialize (H Hp)
        end;
      repeat match goal with
        | H : omap ?f ?tr = _ |- context [omap ?f ?tr] => rewrite H
        end;
      cbn [length]; lia |].
  all: split; [reflexivity|]; split; [reflexivity|]; split; [reflexivity|].
  all: intros k Hk;
    repeat match goal with H : db ?x = _ |- context [db ?x] => rewrite H end;
    auto.
Qed.

Ltac wp_sync2 :=
  lazymatch goal with
  | |- wp (sync_device_time _ _) _ _ _ =>
      eapply wp_mono; [apply sync_device_time_summary|];
      cbv beta; intros ? ? ? (? & -> & ? & ? & ? & ? & ? & ? & ? & ?)
  end.

Ltac wp_all2 :=
  repeat first [wp_prim | wp_send2 | wp_check2 | wp_sync2 | wp_decide | wp_case].

(** What the statements on a whole cycle use of the iteration for one
    device. *)
Lemma sync_all_devices_body_summary config device c env w :
  wp (sync_all_devices_body config device c) env w (fun r w' tr =>
    exists c', r = Ret c' /\
      (tick w <= tick w')%nat /\
      sessions None tr = Some None /\
      (length (notifications tr) <= 2)%nat /\
      printed tr = [] /\ summaries tr = [] /\
      (forall k, is_Some (db w !! k) -> is_Some (db w' !! k)) /\
      success_count c' = (success_count c + length (timestamp_writes tr))%nat /\
      (online_count c <= online_count c' <= S (online_count c))%nat /\
      (success_count c' - success_count c <= online_count c' - online_count c)%nat /\
      Forall (fun k => k = last_time_sync_key device) (timestamp_writes tr)).
Proof.
  unfold sync_all_devices_body. wp_all2.
  all: eexists; split; [reflexivity|].
  all: split; [lia|].
  all: split; [sess; reflexivity|].
  all: repeat match goal with
    | H : ?P -> _, Hp : ?P |- _ => specialize (H Hp)
    end.
  all: obs2; rewrite ?length_app; cbn [length success_count online_count].
  all: split; [lia|].
  all: split; [reflexivity|]; split; [reflexivity|].
  all: split; [intros k Hk; cbn [db]; rewrite ?lookup_insert_is_Some'; auto|].
  all: split; [lia|]; split; [lia|]; split; [lia|].
  all: repeat constructor.
Qed.

(** ** A whole cycle *)

Lemma timestamp_writes_app tr1 tr2 :
  timestamp_writes (tr1 ++ tr2) = timestamp_writes tr1 ++ timestamp_writes tr2.
Proof. apply omap_app. Qed.

Lemma notifications_app tr1 tr2 :
  notifications (tr1 ++ tr2) = notifications tr1 ++ notifications tr2.
Proof. apply omap_app. Qed.

Lemma printed_app tr1 tr2 : printed (tr1 ++ tr2) = printed tr1 ++ printed tr2.
Proof. apply omap_app. Qed.

Lemma summaries_app tr1 tr2 :
  summaries (tr1 ++ tr2) = summaries tr1 ++ summaries tr2.
Proof. apply omap_app. Qed.

Lemma headings_app tr1 tr2 : headings (tr1 ++ tr2) = headings tr1 ++ headings tr2.
Proof. apply omap_app. Qed.

(** What a run of the loop of [sync_all_devices] keeps. *)
Lemma sync_all_devices_loop_summary config ds c env w :
  wp (sync_all_devices_loop config ds c) env w (fun r w' tr =>
    exists c', r = Ret c' /\
      (tick w <= tick w')%nat /\
      sessions None tr = Some None /\
      (length (notifications tr) <= 2 * length ds)%nat /\
      printed tr = [] /\ summaries tr = [] /\
      (forall k, is_Some (db w !! k) -> is_Some (db w' !! k)) /\
      (forall k, (forall d, In d ds -> k <> online_status_key d /\
                                       k <> last_time_sync_key d) ->
                 db w' !! k = db w !! k) /\
      success_count c' = (success_count c + length (timestamp_writes tr))%nat /\
      (online_count c <= online_count c' <= online_count c + length ds)%nat /\
      (success_count c' - success_count c <= online_count c' - online_count c)%nat /\
      Forall (fun k => exists d, In d ds /\ k = last_time_sync_key d)
        (timestamp_writes tr)).
Proof.
  revert c w. induction ds as [|device ds IH]; intros c w; cbn [sync_all_devices_loop].
  - wp_prim. exists c. cbn. repeat split; auto; lia.
  - wp_prim.
    eapply wp_mono;
      [apply (wp_conj _ _ _ _ _ (sync_all_devices_body_summary config device c env w)
                (sync_all_devices_body_wp config device c env w))|].
    cbv beta zeta.
    intros r w1 t1 [(c1 & -> & Ht1 & Hs1 & Hn1 & Hp1 & Hm1 & Hg1 & Hc1 & Ho1 & Hso1 & Hk1)
                    (c1' & _ & _ & _ & _ & Hf1 & _)].
    eapply wp_mono; [apply IH|].
    cbv beta.
    intros r w2 t2 (c2 & -> & Ht2 & Hs2 & Hn2 & Hp2 & Hm2 & Hg2 & Hf2 & Hc2 & Ho2 & Hso2 & Hk2).
    exists c2. split; [reflexivity|]. split; [lia|].
    split; [rewrite (sessions_app _ _ _ _ Hs1); exact Hs2|].
    rewrite notifications_app, printed_app, summaries_app, timestamp_writes_app,
      !length_app, Hp1, Hp2, Hm1, Hm2.
    cbn [length]. split; [lia|]. split; [reflexivity|]. split; [reflexivity|].
    split; [auto|]. split.
    { intros k Hk. rewrite Hf2, Hf1.
      - reflexivity.
      - apply (Hk device). now left.
      - apply (Hk device). now left.
      - intros d Hd. apply Hk. now right. }
    split; [lia|]. split; [lia|]. split; [lia|].
    rewrite Forall_app. split.
    + eapply Forall_impl; [exact Hk1|]. cbn. intros k ->.
      exists device. split; [now left | reflexivity].
    + eapply Forall_impl; [exact Hk2|]. cbn. intros k (d & Hd & ->).
      exists d. split; [now right | reflexivity].
Qed.

(** What a run of [sync_all_devices] keeps. *)
Lemma sync_all_devices_summary config env w :
  wp (sync_all_devices config) env w (fun r w' tr =>
    r = Ret tt /\
    sessions None tr = Some None /\
    (length (notifications tr) <= 2 * length (devices config))%nat /\
    printed tr = [] /\
    (forall k, is_Some (db w !! k) -> is_Some (db w' !! k)) /\
    (forall k, k <> last_time_sync_run_key ->
       (forall d, In d (devices config) ->
          k <> online_status_key d /\ k <> last_time_sync_key d) ->
       db w' !! k = db w !! k) /\
    (length (summaries tr) <= 1)%nat /\
    (forall s o t, In (s, o, t) (summaries tr) ->
       (s <= o <= t)%nat /\ t = length (devices config) /\
       (0 < s \/ o < t)%nat /\
       length (timestamp_writes tr) = S s)).
Proof.
  unfold sync_all_devices. destruct (ENABLE_TIME_SYNC config); cbn [negb].
  - wp_prim. wp_prim. wp_prim.
    eapply wp_mono; [apply sync_all_devices_loop_summary|].
    cbv beta.
    intros r w1 t1 (c1 & -> & Ht1 & Hs1 & Hn1 & Hp1 & Hm1 & Hg1 & Hf1 & Hc1 & Ho1 & Hso1 & Hk1).
    cbn [success_count online_count] in *.
    wp_all2.
    all: split; [reflexivity|].
    all: split; [sess; reflexivity|].
    all: obs2; rewrite ?app_nil_r, ?length_app; cbn [length app].
    all: split; [lia|]; split; [reflexivity|].
    all: split; [intros k Hk; cbn [db]; rewrite lookup_insert_is_Some'; auto|].
    all: split; [intros k Hk1' Hk2'; cbn [db];
                 rewrite lookup_insert_ne by congruence; auto|].
    all: split; [lia|].
    + intros s o t [E|[]]. injection E as <- <- <-.
      apply orb_true_iff in Heqb.
      split; [lia|]. split; [reflexivity|]. split; [|lia].
      destruct Heqb as [Hb|Hb].
      * apply Nat.ltb_lt in Hb. lia.
      * apply negb_true_iff, Nat.eqb_neq in Hb. lia.
    + intros s o t [].
  - wp_prim. wp_prim. wp_prim.
    cbn. repeat split; auto; try lia; intros s o t [].
Qed.

(** X12.  [sync_all_devices] logs at most one summary in a cycle.  Its
    numbers are in order: the devices synchronised are at most the devices
    online, which are at most the devices configured; the number of devices
    synchronised is the number of last-sync keys assigned in the cycle (the
    assignments of a point in time less the one to [last_time_sync_run]);
    and no summary is logged when every device is online and none is
    synchronised. *)
Theorem sync_all_devices_summary_line config env w :
  exists w' tr,
    sync_all_devices config env w = (Ret tt, w', tr) /\
    (length (summaries tr) <= 1)%nat /\
    forall s o t, In (s, o, t) (summaries tr) ->
      (s <= o <= t)%nat /\ t = length (devices config) /\
      (0 < s \/ o < t)%nat /\
      length (timestamp_writes tr) = S s.
Proof.
  destruct (wp_exists _ _ _ _ (sync_all_devices_summary config env w))
    as (r & w' & tr & E & -> & _ & _ & _ & _ & _ & Hl & Hs).
  eauto.
Qed.

(** X13.  A cycle removes no key from the status dictionary, and leaves
    every key as it is that is neither [last_time_sync_run] nor the status
    key or the last-sync key of a configured device. *)
Theorem sync_all_devices_keys config env w :
  exists w' tr,
    sync_all_devices config env w = (Ret tt, w', tr) /\
    (forall k, is_Some (db w !! k) -> is_Some (db w' !! k)) /\
    (forall k, k <> last_time_sync_run_key ->
       (forall d, In d (devices config) ->
          k <> online_status_key d /\ k <> last_time_sync_key d) ->
       db w' !! k = db w !! k).
Proof.
  destruct (wp_exists _ _ _ _ (sync_all_devices_summary config env w))
    as (r & w' & tr & E & -> & _ & _ & _ & Hg & Hf & _).
  eauto.
Qed.

(** X14.  In a cycle the notifier is called at most twice for each
    configured device. *)
Theorem sync_all_devices_notifications config env w :
  exists r w' tr,
    sync_all_devices config env w = (r, w', tr) /\
    (length (notifications tr) <= 2 * length (devices config))%nat.
Proof.
  destruct (wp_exists _ _ _ _ (sync_all_devices_summary config env w))
    as (r & w' & tr & E & _ & _ & Hn & _).
  eauto.
Qed.

(** X15.  In a cycle no session is opened while another is open, every
    session that opens is closed before the cycle goes on to anything else,
    and every request for or to the clock of a device is sent inside a
    session with that device: the cycle ends with no session open. *)
Theorem sync_all_devices_sessions config env w :
  exists r w' tr,
    sync_all_devices config env w = (r, w', tr) /\
    sessions None tr = Some None.
Proof.
  destruct (wp_exists _ _ _ _ (sync_all_devices_summary config env w))
    as (r & w' & tr & E & _ & Hs & _).
  eauto.
Qed.

(** The reachability check makes at least one request. *)
Lemma check_device_online_status_ticks config device env w :
  wp (check_device_online_status config device) env w (fun _ w' _ =>
    (tick w < tick w')%nat).
Proof.
  unfold check_device_online_status.
  repeat first [wp_prim | wp_send | wp_decide | wp_case].
  all: lia.
Qed.

(** X16.  A device that answers the check of [sync_all_devices] and not the
    check [sync_device_time] makes right after it is counted as online and
    stored as offline: the second check stores "offline" and calls the
    notifier with the OFFLINE message, the clock of the device is neither
    read nor set, and no last-sync key is assigned. *)
Theorem sync_all_devices_body_flapping config device c env w :
  reachable_at env (tick w) (ip device) = true ->
  (forall n, (tick w < n)%nat -> zk_connect env n (ip device) = false) ->
  exists w' tr,
    sync_all_devices_body config device c env w =
      (Ret {| success_count := success_count c;
              online_count := S (online_count c) |}, w', tr) /\
    db w' !! online_status_key device = Some offline /\
    In MsgOffline (notifications tr) /\
    get_time_results tr = [] /\ device_writes tr = [] /\
    timestamp_writes tr = [].
Proof.
  intros Hr Hdown.
  assert (W : wp (sync_all_devices_body config device c) env w (fun r w' tr =>
    r = Ret {| success_count := success_count c;
               online_count := S (online_count c) |} /\
    db w' !! online_status_key device = Some offline /\
    In MsgOffline (notifications tr) /\
    get_time_results tr = [] /\ device_writes tr = [] /\
    timestamp_writes tr = [])).
  { unfold sync_all_devices_body, sync_device_time.
    repeat wp_prim.
    eapply wp_mono;
      [apply (wp_conj _ _ _ _ _
                (wp_conj _ _ _ _ _ (check_device_online_status_summary config device env w)
                   (check_device_online_status_wp config device env w))
                (check_device_online_status_ticks config device env w))|].
    cbv beta zeta.
    intros r w1 t1 [[(b & -> & Hb & _ & Hev1 & _ & _ & _ & _ & _ & _ & _ & Hoff & _) _] Ht].
    rewrite Hr in Hb. subst b. specialize (Hoff eq_refl).
    cbv iota. repeat wp_prim.
    eapply wp_mono; [apply check_device_online_status_wp|].
    cbv beta zeta.
    intros r w2 t2 (-> & Hev2 & _ & Hdb2 & _ & Hn2 & _).
    assert (Hr2 : reachable_at env (tick w1) (ip device) = false).
    { unfold reachable_at. now rewrite Hdown by lia. }
    rewrite Hr2 in *. cbn [negb].
    unfold status_changes, status_notifies in *.
    rewrite bool_decide_eq_false_2 in * by assumption.
    cbn [negb status_of transition_message] in *.
    repeat wp_prim.
    destruct (probe_event_obs _ _ Hev1) as (? & ? & ? & ?).
    destruct (probe_event_obs _ _ Hev2) as (? & ? & ? & ?).
    destruct (probe_event_more _ _ Hev1) as (? & ? & ? & ?).
    destruct (probe_event_more _ _ Hev2) as (? & ? & ? & ?).
    split; [reflexivity|].
    split; [rewrite Hdb2; apply lookup_insert_eq|].
    rewrite ?app_nil_r.
    split; [rewrite notifications_app, Hn2; apply in_or_app; right; now left|].
    obs2. repeat split; reflexivity. }
  destruct (wp_exists _ _ _ _ W) as (r & w' & tr & E & -> & H). eauto.
Qed.

Lemma sync_all_devices_body_flapping_witness :
  reachable_at env_flapping (tick world_0) (ip device_1) = true /\
  (forall n, (tick world_0 < n)%nat -> zk_connect env_flapping n (ip device_1) = false) /\
  exists w' tr,
    sync_all_devices_body config_1 device_1 counters_0 env_flapping world_0 =
      (Ret {| success_count := 0; online_count := 1 |}, w', tr) /\
    db w' !! online_status_key device_1 = Some offline.
Proof.
  assert (H1 : reachable_at env_flapping (tick world_0) (ip device_1) = true)
    by reflexivity.
  assert (H2 : forall n, (tick world_0 < n)%nat ->
                         zk_connect env_flapping n (ip device_1) = false).
  { intros n Hn. destruct n as [|n]; [cbn in Hn; lia | reflexivity]. }
  split; [exact H1|]. split; [exact H2|].
  destruct (sync_all_devices_body_flapping config_1 device_1 counters_0
              env_flapping world_0 H1 H2) as (w' & tr & E & Hdb & _).
  exists w', tr. split; assumption.
Defined.

(** The cases of an event or line in a list of known ones. *)
Ltac in_cases H :=
  cbn [In] in H;
  repeat match type of H with _ \/ _ => destruct H as [H|H] end;
  try discriminate H; try contradiction.

(** ** The check mode, again *)

(** X17.  The report of the check mode for one device: the heading, then
    OFFLINE and nothing more when the check finds the device unreachable,
    ONLINE when it finds it reachable; after ONLINE either the one line
    "Error" (reading the clock raised) or the time of the device, the local
    time and a line on the difference, with or without the warning. *)
Theorem check_mode_body_report config device env w :
  exists w' tr,
    check_mode_body config device env w = (Ret tt, w', tr) /\
    exists rest,
      printed tr =
        PrintDevice (device_id device) (ip device)
        :: (if reachable_at env (tick w) (ip device)
            then PrintOnline :: rest else [PrintOffline]) /\
      (reachable_at env (tick w) (ip device) = true ->
       rest = [PrintError] \/
       exists t s line warning,
         rest = [PrintDeviceTime t; PrintSystemTime s; line] ++ warning /\
         (line = PrintUnableToCalculate \/ exists d, line = PrintDifference d) /\
         (warning = [] \/ warning = [PrintExceedsTolerance])).
Proof.
  assert (W : wp (check_mode_body config device) env w (fun r w' tr =>
    r = Ret tt /\
    exists rest,
      printed tr =
        PrintDevice (device_id device) (ip device)
        :: (if reachable_at env (tick w) (ip device)
            then PrintOnline :: rest else [PrintOffline]) /\
      (reachable_at env (tick w) (ip device) = true ->
       rest = [PrintError] \/
       exists t s line warning,
         rest = [PrintDeviceTime t; PrintSystemTime s; line] ++ warning /\
         (line = PrintUnableToCalculate \/ exists d, line = PrintDifference d) /\
         (warning = [] \/ warning = [PrintExceedsTolerance])))).
  { unfold check_mode_body, get_device_time. wp_auto2.
    all: split; [reflexivity|].
    all: match goal with H : _ = reachable_at _ _ _ |- _ => rewrite <- H end.
    all: obs2; rewrite ?app_nil_r.
    all: first [ exists []; split; [reflexivity|]; intros; discriminate
               | eexists; split; [reflexivity|]; intros _ ].
    all: repeat match goal with
      | |- context [if (?z =? 0) then _ else _] => destruct (z =? 0)
      end.
    all: first [ left; reflexivity
               | right; eexists _, _, _, []; split; [reflexivity|]; eauto
               | right; eexists _, _, _, [_]; split; [reflexivity|]; eauto ]. }
  destruct (wp_exists _ _ _ _ W) as (r & w' & tr & E & -> & H). eauto.
Qed.


(** What the statements on the whole report use of the iteration for one
    device. *)
Lemma check_mode_body_summary config device env w :
  wp (check_mode_body config device) env w (fun r w' tr =>
    r = Ret tt /\
    sessions None tr = Some None /\
    (length (notifications tr) <= 1)%nat /\
    headings tr = [(device_id device, ip device)]).
Proof.
  unfold check_mode_body, get_device_time. wp_auto2.
  all: split; [reflexivity|].
  all: split; [sess; reflexivity|].
  all: obs2; rewrite ?app_nil_r, ?length_app; cbn [length].
  all: repeat match goal with
    | |- context [if (?z =? 0) then _ else _] => destruct (z =? 0)
    end.
  all: split; [lia | reflexivity].
Qed.

Lemma check_mode_loop_summary config ds env w :
  wp (check_mode_loop config ds) env w (fun r w' tr =>
    r = Ret tt /\
    sessions None tr = Some None /\
    (length (notifications tr) <= length ds)%nat /\
    headings tr = map (fun d => (device_id d, ip d)) ds).
Proof.
  revert w. induction ds as [|device ds IH]; intros w; cbn [check_mode_loop].
  - wp_prim. repeat split; reflexivity.
  - wp_prim. eapply wp_mono; [apply check_mode_body_summary|].
    cbv beta. intros r w1 t1 (-> & Hs1 & Hn1 & Hh1).
    eapply wp_mono; [apply IH|].
    cbv beta. intros r w2 t2 (-> & Hs2 & Hn2 & Hh2).
    split; [reflexivity|].
    split; [rewrite (sessions_app _ _ _ _ Hs1); exact Hs2|].
    rewrite notifications_app, headings_app, length_app, Hh1, Hh2.
    split; [cbn [length]; lia | reflexivity].
Qed.

(** X19.  The report of the check mode has one heading for each configured
    device, in the order of the configuration: a device that cannot be
    reached, or whose clock cannot be read, does not end the report. *)
Theorem check_mode_headings config env w :
  exists w' tr,
    check_mode config env w = (Ret tt, w', tr) /\
    headings tr = map (fun d => (device_id d, ip d)) (devices config).
Proof.
  assert (W : wp (check_mode config) env w (fun r w' tr =>
    r = Ret tt /\
    headings tr = map (fun d => (device_id d, ip d)) (devices config))).
  { unfold check_mode. wp_prim. wp_prim.
    eapply wp_mono; [apply check_mode_loop_summary|].
    cbv beta. intros r w' tr (-> & _ & _ & Hh).
    split; [reflexivity|]. rewrite headings_app. exact Hh. }
  destruct (wp_exists _ _ _ _ W) as (r & w' & tr & E & -> & H). eauto.
Qed.

(** X20.  The check mode calls the notifier at most once for each
    configured device, and keeps the discipline of sessions: no session is
    opened while another is open, and the report ends with no session
    open. *)
Theorem check_mode_sessions config env w :
  exists r w' tr,
    check_mode config env w = (r, w', tr) /\
    (length (notifications tr) <= length (devices config))%nat /\
    sessions None tr = Some None.
Proof.
  apply wp_exists. unfold check_mode. wp_prim. wp_prim.
  eapply wp_mono; [apply check_mode_loop_summary|].
  cbv beta. intros r w' tr (-> & Hs & Hn & _).
  split; [rewrite notifications_app; exact Hn | exact Hs].
Qed.

(** ** The gap after a refused command, the alert, and the sessions of a
    device *)

Lemma enable_in_device_writes a r tr :
  In (EvEnableDevice a r) tr -> In (EvEnableDevice a r) (device_writes tr).
Proof.
  intros H. apply list_elem_of_In. apply list_elem_of_In in H.
  unfold device_writes. apply list_elem_of_omap. eauto.
Qed.

Lemma disable_in_device_writes a r tr :
  In (EvDisableDevice a r) tr -> In (EvDisableDevice a r) (device_writes tr).
Proof.
  intros H. apply list_elem_of_In. apply list_elem_of_In in H.
  unfold device_writes. apply list_elem_of_omap. eauto.
Qed.

(** X21.  When a device has let itself be disabled and then raises on the
    set-time or the enable command, [sync_device_time] returns [False]
    without sending another command: the device is left disabled, there is
    no delay and no verification, and the "Time synchronized" message is not
    sent. *)
Theorem sync_device_time_leaves_disabled config device env w r w' tr d :
  sync_device_time config device env w = (r, w', tr) ->
  In (EvDisableDevice (ip device) (Ret d)) tr ->
  (forall e, ~ In (EvEnableDevice (ip device) (Ret e)) tr) ->
  r = Ret (Some false) /\
  (exists t,
     device_writes tr =
       [EvDisableDevice (ip device) (Ret d); EvSetTime (ip device) t Raise] \/
     exists s,
       device_writes tr =
         [EvDisableDevice (ip device) (Ret d); EvSetTime (ip device) t (Ret s);
          EvEnableDevice (ip device) Raise]) /\
  sleeps tr = [] /\
  (forall diff, ~ In (MsgTimeSynchronized diff) (notifications tr)).
Proof.
  intros E. revert d.
  refine (wp_run _ _ _ (fun r w' tr => forall d,
    In (EvDisableDevice (ip device) (Ret d)) tr ->
    (forall e, ~ In (EvEnableDevice (ip device) (Ret e)) tr) -> _) _ _ _ _ E).
  clear E r w' tr.
  unfold sync_device_time, get_device_time, set_device_time. wp_auto2.
  all: intros d0 Hd He.
  all: apply disable_in_device_writes in Hd; obs_in Hd; in_cases Hd.
  all: try (exfalso; eapply He; solve_in; fail).
  all: simplify_eq.
  all: split; [reflexivity|].
  all: split; [eexists; obs; first [left; reflexivity | right; eexists; reflexivity]|].
  all: split; [obs; reflexivity|].
  all: intros diff Hin; obs_in Hin; rewrite ?app_nil_r in Hin;
    match goal with H : forall d, ~ In _ _ |- _ => exact (H _ Hin) end.
Qed.

Lemma sync_device_time_leaves_disabled_witness :
  let run := sync_device_time config_1 device_1 env_half_way world_0 in
  In (EvDisableDevice (ip device_1) (Ret true)) run.2 /\
  (forall e, ~ In (EvEnableDevice (ip device_1) (Ret e)) run.2) /\
  run.1.1 = Ret (Some false) /\
  sleeps run.2 = [].
Proof.
  cbv zeta.
  assert (H1 : In (EvDisableDevice (ip device_1) (Ret true))
                 (sync_device_time config_1 device_1 env_half_way world_0).2)
    by (vm_compute; auto 20).
  assert (H2 : forall e, ~ In (EvEnableDevice (ip device_1) (Ret e))
                 (sync_device_time config_1 device_1 env_half_way world_0).2).
  { intros e Hin. vm_compute in Hin.
    repeat match type of Hin with _ \/ _ => destruct Hin as [Hin|Hin] end;
      try discriminate Hin; contradiction. }
  destruct (sync_device_time_leaves_disabled config_1 device_1 env_half_way world_0
              _ _ _ true (run_eta _) H1 H2) as (Hr & _ & Hs & _).
  exact (conj H1 (conj H2 (conj Hr Hs))).
Defined.

(** X22.  The alert [send_google_chat_message] posts names the device only
    when both the device id and the address are given and not empty; with
    one of them missing or empty it is the alert of the system, without
    either.  The time in the alert is the local time at the call, the
    request goes to the configured webhook with a timeout of 10 seconds, and
    the call touches neither the status dictionary nor a device. *)
Theorem send_google_chat_message_alert config m id a env w :
  exists r w' tr,
    send_google_chat_message config m id a env w = (r, w', tr) /\
    db w' = db w /\ disk w' = disk w /\
    connections tr = [] /\ device_writes tr = [] /\
    forall url text timeout answer,
      In (EvPost url text timeout answer) tr ->
      url = webhook_url config /\ timeout = 10 /\
      text = (if truthy id && truthy a
              then DeviceAlert (default "" id) (default "" a)
                     (datetime_now env (tick w)) m
              else SystemAlert (datetime_now env (tick w)) m).
Proof.
  apply wp_exists. unfold send_google_chat_message, webhook_url. wp_go.
  all: split; [reflexivity|]; split; [reflexivity|].
  all: split; [reflexivity|]; split; [reflexivity|].
  all: intros url text timeout answer Hin; cbn [app] in Hin; in_cases Hin.
  all: simplify_eq; repeat split; reflexivity.
Qed.

(** The sessions [sync_device_time] opens. *)
Lemma sync_device_time_connections config device env w :
  wp (sync_device_time config device) env w (fun r w' tr =>
    (1 <= length (connections tr) <= 4)%nat /\
    Forall (fun c => c.1 = ip device) (connections tr)).
Proof.
  unfold sync_device_time, get_device_time, set_device_time. wp_auto2.
  all: obs2; rewrite ?app_nil_r; cbn [length].
  all: split; [lia|].
  all: repeat constructor.
Qed.

(** X23.  The iteration of [sync_all_devices] for a device opens sessions
    with that device only: one when the device is unreachable, and between
    two and five when it is reachable, for the check is made twice, by
    [sync_all_devices] and again by [sync_device_time], before the clock is
    read, set and read again. *)
Theorem sync_all_devices_body_connections config device c env w :
  exists r w' tr,
    sync_all_devices_body config device c env w = (r, w', tr) /\
    Forall (fun s => s.1 = ip device) (connections tr) /\
    (if reachable_at env (tick w) (ip device)
     then (2 <= length (connections tr) <= 5)%nat
     else length (connections tr) = 1%nat).
Proof.
  apply wp_exists. unfold sync_all_devices_body.
  repeat first
    [ wp_prim | wp_send2 | wp_check2 | wp_decide | wp_case
    | lazymatch goal with
      | |- wp (sync_device_time _ _) _ _ _ =>
          eapply wp_mono; [apply sync_device_time_connections|];
          cbv beta; intros ? ? ? (? & ?)
      end ].
  all: match goal with H : _ = reachable_at _ _ _ |- _ => rewrite <- H end.
  all: unfold connections in *; rewrite ?omap_app, ?app_nil_r, ?length_app, ?Forall_app;
    cbn [omap list_omap length app].
  all: repeat match goal with
    | H : omap ?f ?tr = [_] |- _ =>
        lazymatch goal with
        | |- context [omap f tr] => rewrite H
        end
    end.
  all: cbn [length]; rewrite ?app_nil_r.
  all: split; [repeat split; repeat constructor; assumption | try lia].
  all: reflexivity.
Qed.
